(** * AloOttawa payment server: a model of [server.js]

    The server relays subscription requests to a payment processor (Stripe)
    and mirrors the outcome into a document store (Firestore); a webhook
    route reconciles the mirrored records with the processor's events.

    The development follows the source route by route.

    - The document store is a deterministic in-memory store with the
      semantics the routes rely on: [update] of a missing document
      throws, [arrayUnion] adds an element only when no equal element is
      in the array, a query returns its documents in a fixed order.
    - The processor is an opaque remote service: every call may return or
      throw, and its answer may depend on all the calls issued before.
      The trace of the calls is part of the state, so that one can count
      what a route asked for and what it obtained.
    - A user id that a request supplies is a path handed to
      [collection('users').doc]: the store's client refuses it, or reads
      it as a reference to a document of the collection or to a document
      further down.  The id of a stored document refers to that
      document; how any other string is read is left to the client,
      which is a component of the store.
    - Request fields are strings, events carry the fields of the
      processor's object model, and the JavaScript number
      [amount_paid / 100] is the exact quotient. *)

From Stdlib Require Import ZArith QArith.
From stdpp Require Import base strings list.
From Stdlib Require Import Ascii.

Local Open Scope string_scope.
Local Open Scope list_scope.

(** ** JavaScript values *)

(** The outcome of evaluating an expression that may throw: [Throw m]
    carries [err.message]. *)
Inductive Result (A : Type) : Type :=
| Ret (a : A)
| Throw (message : string).
Arguments Ret {A} a.
Arguments Throw {A} message.

Definition is_ret {A} (r : Result A) : bool :=
  match r with Ret _ => true | Throw _ => false end.

(** Truthiness of a value that is a string, [null] or [undefined]:
    [if (existingCustomerId)], [if (webhookSecret)], [if (!customerId)]. *)
Definition truthy (v : option string) : bool :=
  match v with
  | Some s => negb (String.eqb s "")
  | None => false
  end.

(** [FieldValue.serverTimestamp()] resolves to the store's commit time. *)
Definition Timestamp := Z.

(** ** The ledger store (Firestore) *)

Module Firestore.

(** An element of [paymentHistory]. [amount] is [invoice.amount_paid / 100];
    the JavaScript number is modelled by the exact quotient. *)
Record PaymentEntry := {
  date : string;
  amount : Q;
  invoiceId : string;
}.

(** Deep equality of two history elements, as [arrayUnion] compares them. *)
Definition entry_eqb (a b : PaymentEntry) : bool :=
  String.eqb (date a) (date b)
  && Qeq_bool (amount a) (amount b)
  && String.eqb (invoiceId a) (invoiceId b).

(** A document of the [users] collection, restricted to the fields the
    server reads or writes.  An absent field is [None]; an absent
    [paymentHistory] is the empty array. *)
Record UserDoc := {
  stripeCustomerId : option string;
  subscriptionId : option string;
  subscriptionStatus : option string;
  subscriptionUpdatedAt : option Timestamp;
  cancelAtPeriodEnd : option bool;
  updatedAt : option Timestamp;
  lastPayment : option Timestamp;
  paymentHistory : list PaymentEntry;
  subscriptionEndedAt : option Timestamp;
}.

(** A document of [users/{userId}/payment_methods]. *)
Record SavedCard := {
  paymentMethodId : string;
  brand : string;
  last4 : string;
  expMonth : Z;
  expYear : Z;
  isDefault : bool;
  createdAt : Timestamp;
}.

(** A document of [payment_logs]. *)
Record PaymentLog := {
  log_userId : string;
  log_customerId : string;
  log_subscriptionId : string;
  log_amount : Q;
  log_currency : string;
  log_status : string;
  log_timestamp : Timestamp;
}.

(** What [db.collection('users').doc(path)] refers to: a document of the
    collection, by its id, or a document further down the path.  The
    documents below [users] are not documents of [users] (a query on the
    collection does not return them): [elsewhere] carries what a read of
    such a document shows, [None] when it does not exist, with the fields
    of [UserDoc] that it has. *)
Inductive Reference :=
| in_users (id : string)
| elsewhere (data : option UserDoc).

(** The database.  [users] lists the documents of the collection with
    their ids, in the order a query returns them (Firestore orders query
    results by document id); ids are unique in a well-formed store.
    [doc] is the reading of a path that a caller supplies: it throws on
    a string that names no document (the empty string, a path that ends
    on a collection; also a name that the service refuses, which the code
    meets in the read or the write that follows at once), and tells which
    document any other one names. *)
Record Db := {
  users : list (string * UserDoc);
  payment_methods : list (string * SavedCard);
  payment_logs : list PaymentLog;
  doc : string -> Result Reference;
}.

Definition wf (d : Db) : Prop := NoDup (map fst (users d)).

(** [get()] on the document [id] of the collection: [None] when
    [!doc.exists]. *)
Fixpoint get (id : string) (us : list (string * UserDoc)) : option UserDoc :=
  match us with
  | [] => None
  | (k, d) :: rest => if String.eqb k id then Some d else get id rest
  end.

(** [update(fields)] on the document [id] of the collection: [f] applies
    the field changes; [None] when there is no such document (the call
    rejects with NOT_FOUND). *)
Fixpoint update (id : string) (f : UserDoc -> UserDoc)
    (us : list (string * UserDoc)) : option (list (string * UserDoc)) :=
  match us with
  | [] => None
  | (k, d) :: rest =>
      if String.eqb k id then Some ((k, f d) :: rest)
      else match update id f rest with
           | Some rest' => Some ((k, d) :: rest')
           | None => None
           end
  end.

(** [collection('users').where('stripeCustomerId', '==', cid).get()]:
    the [docs] of the snapshot. *)
Definition where_stripeCustomerId (cid : string)
    (us : list (string * UserDoc)) : list (string * UserDoc) :=
  List.filter
    (fun kd => match stripeCustomerId (snd kd) with
               | Some c => String.eqb c cid
               | None => false
               end) us.

(** [FieldValue.arrayUnion(e)]: [e] is added at the end unless an equal
    element is already in the array. *)
Definition arrayUnion (e : PaymentEntry) (l : list PaymentEntry)
    : list PaymentEntry :=
  if existsb (entry_eqb e) l then l else l ++ [e].

Definition not_found (id : string) : string :=
  "5 NOT_FOUND: No document to update: users/" ++ id.

End Firestore.

(** ** The payment processor (Stripe) *)

Module Stripe.

Record Customer := { customer_id : string }.

Record PaymentIntent := { client_secret : option string }.

(** [payment_intent] is [null] when the invoice needs no payment. *)
Record Invoice := { payment_intent : option PaymentIntent }.

Record Subscription := {
  subscription_id : string;
  status : string;
  latest_invoice : option Invoice;
}.

Record Card := {
  brand : string;
  last4 : string;
  exp_month : Z;
  exp_year : Z;
}.

(** [card] is [undefined] on a payment method that is not a card. *)
Record PaymentMethod := {
  payment_method_id : string;
  card : option Card;
}.

(** [event.data.object], with the fields the webhook reads: an invoice
    ([id], [customer], [amount_paid]) or a subscription ([customer]). *)
Record EventObject := {
  id : string;
  customer : string;
  amount_paid : Z;
}.

Record Event := {
  type : string;
  data_object : EventObject;
}.

(** The requests the server sends, with the parameters it passes. *)
Inductive Call :=
| customers_retrieve (id : string)
| customers_create (email name payment_method userId : string)
| paymentMethods_attach (paymentMethodId customer : string)
| customers_update (id default_payment_method : string)
| subscriptions_create (customer price userId : string)
| paymentMethods_retrieve (paymentMethodId : string)
| subscriptions_update (subscriptionId : string) (cancel_at_period_end : bool)
| paymentMethods_list (customer : string).

(** The requests issued so far, each with whether the processor accepted
    it ([true]) or the call threw ([false]). *)
Definition Trace := list (Call * bool).

(** The processor as the server sees it: the answer to each request,
    given everything requested before.  [constructEvent] is the SDK's
    local signature check and decoding of a webhook body. *)
Record Processor := {
  retrieve_customer : Trace -> string -> Result Customer;
  create_customer : Trace -> string -> string -> string -> string -> Result Customer;
  attach_payment_method : Trace -> string -> string -> Result unit;
  update_customer : Trace -> string -> string -> Result unit;
  create_subscription : Trace -> string -> string -> string -> Result Subscription;
  retrieve_payment_method : Trace -> string -> Result PaymentMethod;
  update_subscription : Trace -> string -> bool -> Result Subscription;
  list_payment_methods : Trace -> string -> Result (list PaymentMethod);
  constructEvent : string -> option string -> string -> Result Event;
}.

Definition is_customers_create (c : Call * bool) : bool :=
  match fst c with customers_create _ _ _ _ => true | _ => false end.

Definition is_subscriptions_create (c : Call * bool) : bool :=
  match fst c with subscriptions_create _ _ _ => true | _ => false end.

(** How many customers (subscriptions) the requests of a trace asked
    for, and how many of them the processor created. *)
Definition customers_requested (t : Trace) : nat :=
  length (List.filter is_customers_create t).

Definition customers_created (t : Trace) : nat :=
  length (List.filter (fun c => is_customers_create c && snd c) t).

Definition subscriptions_requested (t : Trace) : nat :=
  length (List.filter is_subscriptions_create t).

Definition subscriptions_created (t : Trace) : nat :=
  length (List.filter (fun c => is_subscriptions_create c && snd c) t).

End Stripe.

(** ** The handler monad: state of both services, and exceptions *)

Record World := {
  db : Firestore.Db;
  calls : Stripe.Trace;
}.

(** A computation returns or throws; the effects made before a throw
    stay (nothing is rolled back). *)
Definition M (A : Type) : Type := World -> Result A * World.

Definition ret {A} (a : A) : M A := fun w => (Ret a, w).

Definition throw {A} (message : string) : M A := fun w => (Throw message, w).

Definition bind {A B} (m : M A) (k : A -> M B) : M B :=
  fun w =>
    match m w with
    | (Ret a, w') => k a w'
    | (Throw e, w') => (Throw e, w')
    end.

(** [try { m } catch (err) { h err.message }] *)
Definition try_catch {A} (m : M A) (h : string -> M A) : M A :=
  fun w =>
    match m w with
    | (Ret a, w') => (Ret a, w')
    | (Throw e, w') => h e w'
    end.

Declare Scope handler_scope.
Delimit Scope handler_scope with handler.
Notation "x <- m ;; k" := (bind m (fun x => k))
  (at level 100, m at next level, right associativity) : handler_scope.
Notation "m ;;; k" := (bind m (fun _ => k))
  (at level 100, right associativity) : handler_scope.
Local Open Scope handler_scope.

(** *** Store operations *)

Definition set_users (us : list (string * Firestore.UserDoc)) (w : World) : World :=
  {| db := {| Firestore.users := us;
              Firestore.payment_methods := Firestore.payment_methods (db w);
              Firestore.payment_logs := Firestore.payment_logs (db w);
              Firestore.doc := Firestore.doc (db w) |};
     calls := calls w |}.

(** [ref.get()] on a document of the collection. *)
Definition users_get (id : string) : M (option Firestore.UserDoc) :=
  fun w => (Ret (Firestore.get id (Firestore.users (db w))), w).

(** [ref.update(fields)] on a document of the collection. *)
Definition users_update (id : string)
    (fields : Firestore.UserDoc -> Firestore.UserDoc) : M unit :=
  fun w =>
    match Firestore.update id fields (Firestore.users (db w)) with
    | Some us => (Ret tt, set_users us w)
    | None => (Throw (Firestore.not_found id), w)
    end.

Definition users_where_stripeCustomerId (cid : string)
    : M (list (string * Firestore.UserDoc)) :=
  fun w => (Ret (Firestore.where_stripeCustomerId cid (Firestore.users (db w))), w).

(** [db.collection('users').doc(path)]: the id of a stored document is
    a reference to it; any other string is read by the client. *)
Definition users_doc (path : string) : M Firestore.Reference :=
  fun w =>
    match Firestore.get path (Firestore.users (db w)) with
    | Some _ => (Ret (Firestore.in_users path), w)
    | None => (Firestore.doc (db w) path, w)
    end.

(** [db.collection('users').doc(path).get()] *)
Definition doc_get (path : string) : M (option Firestore.UserDoc) :=
  ref <- users_doc path ;;
  match ref with
  | Firestore.in_users id => users_get id
  | Firestore.elsewhere data => ret data
  end.

(** [db.collection('users').doc(path).update(fields)].  A document below
    [users] must exist to be updated, like any other; the fields written
    on it are none of a saved card's nor of a log's, and the collections
    of the model stay as they are. *)
Definition doc_update (path : string)
    (fields : Firestore.UserDoc -> Firestore.UserDoc) : M unit :=
  ref <- users_doc path ;;
  match ref with
  | Firestore.in_users id => users_update id fields
  | Firestore.elsewhere (Some _) => ret tt
  | Firestore.elsewhere None => throw (Firestore.not_found path)
  end.

(** [ref.collection('payment_methods').add(c)], for the document [userId]. *)
Definition payment_methods_add (userId : string) (c : Firestore.SavedCard) : M unit :=
  fun w =>
    (Ret tt,
     {| db := {| Firestore.users := Firestore.users (db w);
                 Firestore.payment_methods :=
                   Firestore.payment_methods (db w) ++ [(userId, c)];
                 Firestore.payment_logs := Firestore.payment_logs (db w);
                 Firestore.doc := Firestore.doc (db w) |};
        calls := calls w |}).

Definition payment_logs_add (l : Firestore.PaymentLog) : M unit :=
  fun w =>
    (Ret tt,
     {| db := {| Firestore.users := Firestore.users (db w);
                 Firestore.payment_methods := Firestore.payment_methods (db w);
                 Firestore.payment_logs := Firestore.payment_logs (db w) ++ [l];
                 Firestore.doc := Firestore.doc (db w) |};
        calls := calls w |}).

(** *** Processor requests *)

(** Send request [c]; the processor answers from what it has seen so far,
    and the request joins the trace. *)
Definition request {A} (c : Stripe.Call) (answer : Stripe.Trace -> Result A) : M A :=
  fun w =>
    let r := answer (calls w) in
    (r, {| db := db w; calls := calls w ++ [(c, is_ret r)] |}).

(** A local computation that may throw ([JSON.parse], [constructEvent]). *)
Definition eval {A} (r : Result A) : M A := fun w => (r, w).

(** ** HTTP surface *)

Inductive Body :=
| body_status (status message timestamp : string)
| body_subscription (subscriptionId customerId : string)
    (clientSecret : option string) (status : string)
| body_error (error : string)
| body_message (message : string)
| body_received
| body_no_paymentMethods
| body_paymentMethods (data : list Stripe.PaymentMethod).

(** [res.json(b)] answers 200, [res.status(400).json(b)] and
    [res.status(400).send(text)] answer 400. *)
Inductive Response :=
| json (code : nat) (b : Body)
| send (code : nat) (text : string).

Inductive Request :=
| GET_root
| POST_create_subscription (paymentMethodId priceId userId : string)
    (saveCard : bool) (userEmail userName : string)
| POST_cancel_subscription (subscriptionId userId : string)
| POST_webhook (body : string) (stripe_signature : option string)
| GET_payment_methods (userId : string).

(** What a request reads from its surroundings: [new Date().toISOString()]
    and the time the store stamps on its writes. *)
Record Clock := {
  now : string;
  serverTimestamp : Timestamp;
}.

(** [try { ... res.json(...) } catch (error) { on_error error.message }] *)
Definition route (m : M Response) (on_error : string -> Response)
    : World -> Response * World :=
  fun w =>
    match m w with
    | (Ret r, w') => (r, w')
    | (Throw e, w') => (on_error e, w')
    end.

Definition string_of (v : option string) : string :=
  match v with Some s => s | None => "" end.

(** ** The routes of [server.js] *)

Section Server.

Variable stripe : Stripe.Processor.
Variable JSON_parse : string -> Result Stripe.Event.
(** [process.env.STRIPE_WEBHOOK_SECRET] *)
Variable webhookSecret : option string.

(** *** POST /api/create-subscription *)

Definition new_customer (paymentMethodId userId userEmail userName : string)
    : M Stripe.Customer :=
  request (Stripe.customers_create userEmail userName paymentMethodId userId)
    (fun t => Stripe.create_customer stripe t userEmail userName paymentMethodId userId).

(** Step 1: get or create the Stripe customer. *)
Definition get_or_create_customer
    (paymentMethodId userId userEmail userName : string) : M Stripe.Customer :=
  userDoc <- doc_get userId ;;
  let existingCustomerId :=
    match userDoc with
    | Some d => Firestore.stripeCustomerId d
    | None => None
    end in
  if truthy existingCustomerId then
    try_catch
      (request (Stripe.customers_retrieve (string_of existingCustomerId))
         (fun t => Stripe.retrieve_customer stripe t (string_of existingCustomerId)))
      (fun _ => new_customer paymentMethodId userId userEmail userName)
  else
    new_customer paymentMethodId userId userEmail userName.

(** Step 2: attach the payment method; the [catch] only logs. *)
Definition attach (paymentMethodId : string) (customer : Stripe.Customer) : M unit :=
  try_catch
    (request (Stripe.paymentMethods_attach paymentMethodId (Stripe.customer_id customer))
       (fun t => Stripe.attach_payment_method stripe t paymentMethodId
                   (Stripe.customer_id customer)))
    (fun _ => ret tt).

(** Step 5: [subscription.latest_invoice.payment_intent.client_secret] *)
Definition read_client_secret (subscription : Stripe.Subscription)
    : M (option string) :=
  match Stripe.latest_invoice subscription with
  | None => throw "Cannot read properties of null (reading 'payment_intent')"
  | Some invoice =>
      match Stripe.payment_intent invoice with
      | None => throw "Cannot read properties of null (reading 'client_secret')"
      | Some intent => ret (Stripe.client_secret intent)
      end
  end.

(** Step 6: the fields written on the user document. *)
Definition subscription_fields (customer : Stripe.Customer)
    (subscription : Stripe.Subscription) (clk : Clock)
    (d : Firestore.UserDoc) : Firestore.UserDoc :=
  {| Firestore.stripeCustomerId := Some (Stripe.customer_id customer);
     Firestore.subscriptionId := Some (Stripe.subscription_id subscription);
     Firestore.subscriptionStatus := Some (Stripe.status subscription);
     Firestore.subscriptionUpdatedAt := Some (serverTimestamp clk);
     Firestore.cancelAtPeriodEnd := Firestore.cancelAtPeriodEnd d;
     Firestore.updatedAt := Firestore.updatedAt d;
     Firestore.lastPayment := Firestore.lastPayment d;
     Firestore.paymentHistory := Firestore.paymentHistory d;
     Firestore.subscriptionEndedAt := Firestore.subscriptionEndedAt d |}.

(** Step 7: save the payment method when asked to. *)
Definition save_card (saveCard : bool) (paymentMethodId userId : string)
    (clk : Clock) : M unit :=
  if saveCard then
    paymentMethod <- request (Stripe.paymentMethods_retrieve paymentMethodId)
      (fun t => Stripe.retrieve_payment_method stripe t paymentMethodId) ;;
    ref <- users_doc userId ;;
    match Stripe.card paymentMethod with
    | None => throw "Cannot read properties of undefined (reading 'brand')"
    | Some card =>
        payment_methods_add
          match ref with
          | Firestore.in_users id => id
          | Firestore.elsewhere _ => userId
          end
          {| Firestore.paymentMethodId := paymentMethodId;
             Firestore.brand := Stripe.brand card;
             Firestore.last4 := Stripe.last4 card;
             Firestore.expMonth := Stripe.exp_month card;
             Firestore.expYear := Stripe.exp_year card;
             Firestore.isDefault := true;
             Firestore.createdAt := serverTimestamp clk |}
    end
  else ret tt.

(** Steps 3 to 9, once the customer is known and the attach is over. *)
Definition subscribe (paymentMethodId priceId userId : string) (saveCard : bool)
    (clk : Clock) (customer : Stripe.Customer) : M Response :=
  request (Stripe.customers_update (Stripe.customer_id customer) paymentMethodId)
    (fun t => Stripe.update_customer stripe t (Stripe.customer_id customer)
                paymentMethodId) ;;;
  subscription <-
    request (Stripe.subscriptions_create (Stripe.customer_id customer) priceId userId)
      (fun t => Stripe.create_subscription stripe t (Stripe.customer_id customer)
                  priceId userId) ;;
  clientSecret <- read_client_secret subscription ;;
  doc_update userId (subscription_fields customer subscription clk) ;;;
  save_card saveCard paymentMethodId userId clk ;;;
  payment_logs_add
    {| Firestore.log_userId := userId;
       Firestore.log_customerId := Stripe.customer_id customer;
       Firestore.log_subscriptionId := Stripe.subscription_id subscription;
       Firestore.log_amount := 999 # 100;
       Firestore.log_currency := "cad";
       Firestore.log_status := Stripe.status subscription;
       Firestore.log_timestamp := serverTimestamp clk |} ;;;
  ret (json 200
         (body_subscription (Stripe.subscription_id subscription)
            (Stripe.customer_id customer) clientSecret
            (Stripe.status subscription))).

Definition create_subscription (clk : Clock)
    (paymentMethodId priceId userId : string) (saveCard : bool)
    (userEmail userName : string) : World -> Response * World :=
  route
    (customer <- get_or_create_customer paymentMethodId userId userEmail userName ;;
     attach paymentMethodId customer ;;;
     subscribe paymentMethodId priceId userId saveCard clk customer)
    (fun message => json 400 (body_error message)).

(** *** POST /api/cancel-subscription *)

Definition canceling_fields (clk : Clock) (d : Firestore.UserDoc) : Firestore.UserDoc :=
  {| Firestore.stripeCustomerId := Firestore.stripeCustomerId d;
     Firestore.subscriptionId := Firestore.subscriptionId d;
     Firestore.subscriptionStatus := Some "canceling";
     Firestore.subscriptionUpdatedAt := Firestore.subscriptionUpdatedAt d;
     Firestore.cancelAtPeriodEnd := Some true;
     Firestore.updatedAt := Some (serverTimestamp clk);
     Firestore.lastPayment := Firestore.lastPayment d;
     Firestore.paymentHistory := Firestore.paymentHistory d;
     Firestore.subscriptionEndedAt := Firestore.subscriptionEndedAt d |}.

Definition cancel_subscription (clk : Clock) (subscriptionId userId : string)
    : World -> Response * World :=
  route
    (request (Stripe.subscriptions_update subscriptionId true)
       (fun t => Stripe.update_subscription stripe t subscriptionId true) ;;;
     doc_update userId (canceling_fields clk) ;;;
     ret (json 200 (body_message "Subscription will be cancelled at period end")))
    (fun message => json 400 (body_error message)).

(** *** POST /webhook *)

(** The element handed to [arrayUnion]. *)
Definition history_entry (clk : Clock) (invoice : Stripe.EventObject)
    : Firestore.PaymentEntry :=
  {| Firestore.date := now clk;
     Firestore.amount := inject_Z (Stripe.amount_paid invoice) / 100;
     Firestore.invoiceId := Stripe.id invoice |}.

Definition payment_succeeded_fields (clk : Clock) (invoice : Stripe.EventObject)
    (d : Firestore.UserDoc) : Firestore.UserDoc :=
  {| Firestore.stripeCustomerId := Firestore.stripeCustomerId d;
     Firestore.subscriptionId := Firestore.subscriptionId d;
     Firestore.subscriptionStatus := Some "active";
     Firestore.subscriptionUpdatedAt := Firestore.subscriptionUpdatedAt d;
     Firestore.cancelAtPeriodEnd := Firestore.cancelAtPeriodEnd d;
     Firestore.updatedAt := Firestore.updatedAt d;
     Firestore.lastPayment := Some (serverTimestamp clk);
     Firestore.paymentHistory :=
       Firestore.arrayUnion (history_entry clk invoice) (Firestore.paymentHistory d);
     Firestore.subscriptionEndedAt := Firestore.subscriptionEndedAt d |}.

Definition cancelled_fields (clk : Clock) (d : Firestore.UserDoc) : Firestore.UserDoc :=
  {| Firestore.stripeCustomerId := Firestore.stripeCustomerId d;
     Firestore.subscriptionId := Firestore.subscriptionId d;
     Firestore.subscriptionStatus := Some "cancelled";
     Firestore.subscriptionUpdatedAt := Firestore.subscriptionUpdatedAt d;
     Firestore.cancelAtPeriodEnd := Firestore.cancelAtPeriodEnd d;
     Firestore.updatedAt := Firestore.updatedAt d;
     Firestore.lastPayment := Firestore.lastPayment d;
     Firestore.paymentHistory := Firestore.paymentHistory d;
     Firestore.subscriptionEndedAt := Some (serverTimestamp clk) |}.

(** The [switch (event.type)] of the handler. *)
Definition dispatch (clk : Clock) (event : Stripe.Event) : M unit :=
  if String.eqb (Stripe.type event) "invoice.payment_succeeded" then
    let invoice := Stripe.data_object event in
    let customerId := Stripe.customer invoice in
    usersSnapshot <- users_where_stripeCustomerId customerId ;;
    match usersSnapshot with
    | userDoc :: _ =>
        users_update (fst userDoc) (payment_succeeded_fields clk invoice)
    | [] => ret tt
    end
  else if String.eqb (Stripe.type event) "invoice.payment_failed" then
    ret tt
  else if String.eqb (Stripe.type event) "customer.subscription.deleted" then
    let subscription := Stripe.data_object event in
    customerSnapshot <- users_where_stripeCustomerId (Stripe.customer subscription) ;;
    match customerSnapshot with
    | userDoc :: _ => users_update (fst userDoc) (cancelled_fields clk)
    | [] => ret tt
    end
  else ret tt.

(** Authenticate (or, without a secret, just parse) the raw body. *)
Definition decode (body : string) (sig : option string) : Result Stripe.Event :=
  if truthy webhookSecret then
    Stripe.constructEvent stripe body sig (string_of webhookSecret)
  else
    JSON_parse body.

Definition webhook (clk : Clock) (body : string) (sig : option string)
    : World -> Response * World :=
  route
    (event <- eval (decode body sig) ;;
     dispatch clk event ;;;
     ret (json 200 body_received))
    (fun message => send 400 ("Webhook Error: " ++ message)).

(** *** GET /api/payment-methods/:userId *)

Definition payment_methods (userId : string) : World -> Response * World :=
  route
    (userDoc <- doc_get userId ;;
     let customerId :=
       match userDoc with
       | Some d => Firestore.stripeCustomerId d
       | None => None
       end in
     if negb (truthy customerId) then ret (json 200 body_no_paymentMethods)
     else
       paymentMethods <- request (Stripe.paymentMethods_list (string_of customerId))
         (fun t => Stripe.list_payment_methods stripe t (string_of customerId)) ;;
       ret (json 200 (body_paymentMethods paymentMethods)))
    (fun message => json 400 (body_error message)).

(** *** GET / *)

Definition root (clk : Clock) : World -> Response * World :=
  fun w =>
    (json 200 (body_status "Server is running!" "AloOttawa Payment Server" (now clk)), w).

(** *** The server: one request, one response *)

Definition handle (clk : Clock) (r : Request) : World -> Response * World :=
  match r with
  | GET_root => root clk
  | POST_create_subscription paymentMethodId priceId userId saveCard userEmail userName =>
      create_subscription clk paymentMethodId priceId userId saveCard userEmail userName
  | POST_cancel_subscription subscriptionId userId =>
      cancel_subscription clk subscriptionId userId
  | POST_webhook body sig => webhook clk body sig
  | GET_payment_methods userId => payment_methods userId
  end.

End Server.

(** ** Start-up: the service account read from the environment *)

(** [s.replace(/\\n/g, '\n')]: every backslash followed by [n] becomes one
    line feed; the scan goes on after the pair. *)
Fixpoint replace_escaped_newlines (s : string) : string :=
  match s with
  | EmptyString => EmptyString
  | String c rest =>
      match rest with
      | String c' rest' =>
          if Ascii.eqb c "\"%char && Ascii.eqb c' "n"%char
          then String "010"%char (replace_escaped_newlines rest')
          else String c (replace_escaped_newlines rest)
      | EmptyString => String c EmptyString
      end
  end.

(** [process.env.FIREBASE_PRIVATE_KEY?.replace(/\\n/g, '\n')]: an unset
    variable stays [undefined]. *)
Definition private_key (FIREBASE_PRIVATE_KEY : option string) : option string :=
  option_map replace_escaped_newlines FIREBASE_PRIVATE_KEY.

(** ** Sample data: users, events and processors to run the routes on *)

Module Sample.

Definition clock1 : Clock :=
  {| now := "2024-05-01T10:00:00.000Z"; serverTimestamp := 1714557600%Z |}.

Definition clock2 : Clock :=
  {| now := "2024-05-01T10:00:05.250Z"; serverTimestamp := 1714557605%Z |}.

(** A user document with none of the billing fields set. *)
Definition blank : Firestore.UserDoc :=
  {| Firestore.stripeCustomerId := None;
     Firestore.subscriptionId := None;
     Firestore.subscriptionStatus := None;
     Firestore.subscriptionUpdatedAt := None;
     Firestore.cancelAtPeriodEnd := None;
     Firestore.updatedAt := None;
     Firestore.lastPayment := None;
     Firestore.paymentHistory := [];
     Firestore.subscriptionEndedAt := None |}.

(** A user linked to processor customer [cid], with payment history [h]. *)
Definition linked (cid : string) (h : list Firestore.PaymentEntry)
    : Firestore.UserDoc :=
  {| Firestore.stripeCustomerId := Some cid;
     Firestore.subscriptionId := Some "sub_1";
     Firestore.subscriptionStatus := Some "incomplete";
     Firestore.subscriptionUpdatedAt := Some 1714000000%Z;
     Firestore.cancelAtPeriodEnd := None;
     Firestore.updatedAt := None;
     Firestore.lastPayment := None;
     Firestore.paymentHistory := h;
     Firestore.subscriptionEndedAt := None |}.

(** The pieces of a path between slashes, empty pieces left out (a
    leading or a trailing slash is allowed). *)
Fixpoint segments (path piece : string) : list string :=
  match path with
  | EmptyString => if String.eqb piece "" then [] else [piece]
  | String c rest =>
      if Ascii.eqb c "/"%char
      then (if String.eqb piece "" then segments rest ""
            else piece :: segments rest "")
      else segments rest (piece ++ String c "")%string
  end.

Fixpoint has_double_slash (path : string) : bool :=
  match path with
  | EmptyString => false
  | String c rest =>
      match rest with
      | String c' _ =>
          (Ascii.eqb c "/"%char && Ascii.eqb c' "/"%char) || has_double_slash rest
      | EmptyString => false
      end
  end.

(** [s] between double quotes, as the client's messages show a name or
    a value. *)
Definition quoted (s : string) : string :=
  String "034"%char (s ++ String "034"%char "").

(** The errors of [doc(path)]. *)
Definition invalid_path (why : string) : string :=
  "Value for argument " ++ quoted "documentPath"
  ++ " is not a valid resource path. " ++ why.

Definition empty_path : string := invalid_path "Path must be a non-empty string.".

Definition doubled_slash : string := invalid_path "Paths must not contain //.".

Definition not_a_document (path : string) : string :=
  "Value for argument " ++ quoted "documentPath"
  ++ " must point to a document, but was " ++ quoted path
  ++ ". Your path does not contain an even number of components.".

(** The checks of the client, on a store that holds no document below
    [users]: a path of one piece names a document of the collection, a
    longer path that ends on a document names a document that does not
    exist, and an empty path, a path with a doubled slash or a path that
    ends on a collection is refused. *)
Definition doc (path : string) : Result Firestore.Reference :=
  if String.eqb path "" then Throw empty_path
  else if has_double_slash path then Throw doubled_slash
  else
    match segments path "" with
    | [id] => Ret (Firestore.in_users id)
    | l =>
        if Nat.odd (length l) then Ret (Firestore.elsewhere None)
        else Throw (not_a_document path)
    end.

Definition world (us : list (string * Firestore.UserDoc)) : World :=
  {| db := {| Firestore.users := us;
              Firestore.payment_methods := [];
              Firestore.payment_logs := [];
              Firestore.doc := doc |};
     calls := [] |}.

(** Two users share customer [cus_1]; [u3] has no customer yet. *)
Definition three_users : World :=
  world [("u1", linked "cus_1" []); ("u2", linked "cus_1" []); ("u3", blank)].

(** A user whose history already holds [entry1] (defined below). *)
Definition recorded (h : list Firestore.PaymentEntry) : World :=
  world [("u1", linked "cus_1" h)].

Definition invoice_paid : Stripe.Event :=
  {| Stripe.type := "invoice.payment_succeeded";
     Stripe.data_object :=
       {| Stripe.id := "in_1"; Stripe.customer := "cus_1"; Stripe.amount_paid := 999%Z |} |}.

Definition invoice_paid_stranger : Stripe.Event :=
  {| Stripe.type := "invoice.payment_succeeded";
     Stripe.data_object :=
       {| Stripe.id := "in_2"; Stripe.customer := "cus_9"; Stripe.amount_paid := 999%Z |} |}.

Definition subscription_deleted (cid : string) : Stripe.Event :=
  {| Stripe.type := "customer.subscription.deleted";
     Stripe.data_object :=
       {| Stripe.id := "sub_1"; Stripe.customer := cid; Stripe.amount_paid := 0%Z |} |}.

(** The entry the webhook records for [invoice_paid] at [clock1]. *)
Definition entry1 : Firestore.PaymentEntry :=
  {| Firestore.date := "2024-05-01T10:00:00.000Z";
     Firestore.amount := 999 # 100;
     Firestore.invoiceId := "in_1" |}.


(** A toy decoder for request bodies. *)
Definition parse (body : string) : Result Stripe.Event :=
  if String.eqb body "paid" then Ret invoice_paid
  else if String.eqb body "paid-stranger" then Ret invoice_paid_stranger
  else if String.eqb body "deleted" then Ret (subscription_deleted "cus_1")
  else if String.eqb body "deleted-stranger" then Ret (subscription_deleted "cus_9")
  else Throw "Unexpected end of JSON input".

Definition visa : Stripe.Card :=
  {| Stripe.brand := "visa"; Stripe.last4 := "4242";
     Stripe.exp_month := 12%Z; Stripe.exp_year := 2030%Z |}.

Definition new_subscription : Stripe.Subscription :=
  {| Stripe.subscription_id := "sub_new";
     Stripe.status := "incomplete";
     Stripe.latest_invoice :=
       Some {| Stripe.payment_intent :=
                 Some {| Stripe.client_secret := Some "pi_1_secret" |} |} |}.

(** A processor that accepts every request; a webhook body verifies
    only under the signature ["good"]. *)
Definition accepting : Stripe.Processor :=
  {| Stripe.retrieve_customer := fun _ id => Ret {| Stripe.customer_id := id |};
     Stripe.create_customer := fun _ _ _ _ _ => Ret {| Stripe.customer_id := "cus_new" |};
     Stripe.attach_payment_method := fun _ _ _ => Ret tt;
     Stripe.update_customer := fun _ _ _ => Ret tt;
     Stripe.create_subscription := fun _ _ _ _ => Ret new_subscription;
     Stripe.retrieve_payment_method :=
       fun _ pm => Ret {| Stripe.payment_method_id := pm; Stripe.card := Some visa |};
     Stripe.update_subscription :=
       fun _ sid _ =>
         Ret {| Stripe.subscription_id := sid; Stripe.status := "active";
                Stripe.latest_invoice := None |};
     Stripe.list_payment_methods := fun _ _ => Ret [];
     Stripe.constructEvent :=
       fun body sig _ =>
         match sig with
         | Some s =>
             if String.eqb s "good" then parse body
             else Throw "No signatures found matching the expected signature for payload."
         | None => Throw "No stripe-signature header value was provided."
         end |}.

(** As [accepting], but attaching a payment method is refused with
    [message]. *)
Definition refusing_attach (message : string) : Stripe.Processor :=
  {| Stripe.retrieve_customer := Stripe.retrieve_customer accepting;
     Stripe.create_customer := Stripe.create_customer accepting;
     Stripe.attach_payment_method := fun _ _ _ => Throw message;
     Stripe.update_customer := Stripe.update_customer accepting;
     Stripe.create_subscription := Stripe.create_subscription accepting;
     Stripe.retrieve_payment_method := Stripe.retrieve_payment_method accepting;
     Stripe.update_subscription := Stripe.update_subscription accepting;
     Stripe.list_payment_methods := Stripe.list_payment_methods accepting;
     Stripe.constructEvent := Stripe.constructEvent accepting |}.

(** As [accepting], but no customer can be created. *)
Definition refusing_customers : Stripe.Processor :=
  {| Stripe.retrieve_customer := Stripe.retrieve_customer accepting;
     Stripe.create_customer := fun _ _ _ _ _ => Throw "No such PaymentMethod: 'pm_1'";
     Stripe.attach_payment_method := Stripe.attach_payment_method accepting;
     Stripe.update_customer := Stripe.update_customer accepting;
     Stripe.create_subscription := Stripe.create_subscription accepting;
     Stripe.retrieve_payment_method := Stripe.retrieve_payment_method accepting;
     Stripe.update_subscription := Stripe.update_subscription accepting;
     Stripe.list_payment_methods := Stripe.list_payment_methods accepting;
     Stripe.constructEvent := Stripe.constructEvent accepting |}.

(** As [accepting], but the processor knows no subscription. *)
Definition unknown_subscriptions : Stripe.Processor :=
  {| Stripe.retrieve_customer := Stripe.retrieve_customer accepting;
     Stripe.create_customer := Stripe.create_customer accepting;
     Stripe.attach_payment_method := Stripe.attach_payment_method accepting;
     Stripe.update_customer := Stripe.update_customer accepting;
     Stripe.create_subscription := Stripe.create_subscription accepting;
     Stripe.retrieve_payment_method := Stripe.retrieve_payment_method accepting;
     Stripe.update_subscription := fun _ sid _ => Throw ("No such subscription: '" ++ sid ++ "'");
     Stripe.list_payment_methods := Stripe.list_payment_methods accepting;
     Stripe.constructEvent := Stripe.constructEvent accepting |}.

(** As [accepting], but the customer ids on record are stale. *)
Definition forgetting_customers : Stripe.Processor :=
  {| Stripe.retrieve_customer := fun _ id => Throw ("No such customer: '" ++ id ++ "'");
     Stripe.create_customer := Stripe.create_customer accepting;
     Stripe.attach_payment_method := Stripe.attach_payment_method accepting;
     Stripe.update_customer := Stripe.update_customer accepting;
     Stripe.create_subscription := Stripe.create_subscription accepting;
     Stripe.retrieve_payment_method := Stripe.retrieve_payment_method accepting;
     Stripe.update_subscription := Stripe.update_subscription accepting;
     Stripe.list_payment_methods := Stripe.list_payment_methods accepting;
     Stripe.constructEvent := Stripe.constructEvent accepting |}.




(** As [accepting], with one card on file for every customer. *)
Definition one_card : Stripe.Processor :=
  {| Stripe.retrieve_customer := Stripe.retrieve_customer accepting;
     Stripe.create_customer := Stripe.create_customer accepting;
     Stripe.attach_payment_method := Stripe.attach_payment_method accepting;
     Stripe.update_customer := Stripe.update_customer accepting;
     Stripe.create_subscription := Stripe.create_subscription accepting;
     Stripe.retrieve_payment_method := Stripe.retrieve_payment_method accepting;
     Stripe.update_subscription := Stripe.update_subscription accepting;
     Stripe.list_payment_methods :=
       fun _ _ => Ret [{| Stripe.payment_method_id := "pm_1"; Stripe.card := Some visa |}];
     Stripe.constructEvent := Stripe.constructEvent accepting |}.

(** An event of a type the webhook has no case for. *)
Definition customer_created : Stripe.Event :=
  {| Stripe.type := "customer.created";
     Stripe.data_object :=
       {| Stripe.id := "cus_1"; Stripe.customer := "cus_1"; Stripe.amount_paid := 0%Z |} |}.

Definition invoice_failed : Stripe.Event :=
  {| Stripe.type := "invoice.payment_failed";
     Stripe.data_object :=
       {| Stripe.id := "in_3"; Stripe.customer := "cus_1"; Stripe.amount_paid := 0%Z |} |}.

(** A second toy decoder, for the other event types. *)
Definition parse_other (body : string) : Result Stripe.Event :=
  if String.eqb body "created" then Ret customer_created
  else if String.eqb body "failed" then Ret invoice_failed
  else parse body.

End Sample.

(** ** Vocabulary of the statements *)

(** [w'] is [w] with the user document [uid] rewritten from [d] to [d']
    and nothing else touched: no other document, collection or processor
    request. *)
Definition rewrites_only (uid : string) (d d' : Firestore.UserDoc) (w w' : World)
    : Prop :=
  Firestore.get uid (Firestore.users (db w)) = Some d /\
  Firestore.get uid (Firestore.users (db w')) = Some d' /\
  (forall k, k <> uid ->
     Firestore.get k (Firestore.users (db w')) = Firestore.get k (Firestore.users (db w))) /\
  map fst (Firestore.users (db w')) = map fst (Firestore.users (db w)) /\
  Firestore.payment_methods (db w') = Firestore.payment_methods (db w) /\
  Firestore.payment_logs (db w') = Firestore.payment_logs (db w) /\
  calls w' = calls w.

(** [existingCustomerId] of create-subscription, as read from the store. *)
Definition existing_customer_id (userId : string) (w : World) : option string :=
  match Firestore.get userId (Firestore.users (db w)) with
  | Some d => Firestore.stripeCustomerId d
  | None => None
  end.

(** The subscription carries [latest_invoice.payment_intent]. *)
Definition has_payment_intent (s : Stripe.Subscription) : bool :=
  match Stripe.latest_invoice s with
  | Some invoice =>
      match Stripe.payment_intent invoice with
      | Some _ => true
      | None => false
      end
  | None => false
  end.

(** [existingCustomerId] of create-subscription, as the call reads it:
    the read of the user document may throw. *)
Definition read_customer_id (userId : string) (w : World) : Result (option string) :=
  match fst (doc_get userId w) with
  | Ret (Some d) => Ret (Firestore.stripeCustomerId d)
  | Ret None => Ret None
  | Throw message => Throw message
  end.

(** What the processor answers, in a call that starts at trace [t] for a
    user without a customer, to the requests that lead to the
    subscription: the creation of the customer, the update of its default
    payment method (after the attach, whatever its outcome) and the
    creation of the subscription. *)
Definition new_subscription_outcome (stripe : Stripe.Processor) (t : Stripe.Trace)
    (paymentMethodId priceId userId userEmail userName : string)
    : Result Stripe.Subscription :=
  match Stripe.create_customer stripe t userEmail userName paymentMethodId userId with
  | Throw message => Throw message
  | Ret customer =>
      let cid := Stripe.customer_id customer in
      let t1 := t ++ [(Stripe.customers_create userEmail userName paymentMethodId userId,
                       true)] in
      let t2 := t1 ++ [(Stripe.paymentMethods_attach paymentMethodId cid,
                        is_ret (Stripe.attach_payment_method stripe t1
                                  paymentMethodId cid))] in
      match Stripe.update_customer stripe t2 cid paymentMethodId with
      | Throw message => Throw message
      | Ret _ =>
          Stripe.create_subscription stripe
            (t2 ++ [(Stripe.customers_update cid paymentMethodId, true)])
            cid priceId userId
      end
  end.

(** From [w] to [w'] no user document is lost and every payment history
    is only extended at its end. *)
Definition history_extended (w w' : World) : Prop :=
  forall uid d,
    Firestore.get uid (Firestore.users (db w)) = Some d ->
    exists d',
      Firestore.get uid (Firestore.users (db w')) = Some d' /\
      Firestore.paymentHistory d `prefix_of` Firestore.paymentHistory d'.

(** A computation that only extends payment histories, whether it returns
    or throws. *)
Definition keeps_history {A} (m : M A) : Prop :=
  forall w, history_extended w (snd (m w)).


(** No user document is created or deleted from [w] to [w']. *)
Definition same_documents (w w' : World) : Prop :=
  map fst (Firestore.users (db w')) = map fst (Firestore.users (db w)).

(** The processor trace and the two write-once collections only grow at
    their end from [w] to [w']. *)
Definition append_only (w w' : World) : Prop :=
  calls w `prefix_of` calls w' /\
  Firestore.payment_methods (db w) `prefix_of` Firestore.payment_methods (db w') /\
  Firestore.payment_logs (db w) `prefix_of` Firestore.payment_logs (db w').

(** Both at once: what every route respects. *)
Definition conservative (w w' : World) : Prop :=
  same_documents w w' /\ append_only w w'.

(** A computation whose start and end are related by [R], whether it
    returns or throws. *)
Definition stable {A} (R : World -> World -> Prop) (m : M A) : Prop :=
  forall w, R w (snd (m w)).

(** Somewhere in [s] a backslash is followed by [n]. *)
Fixpoint has_escaped_newline (s : string) : bool :=
  match s with
  | EmptyString => false
  | String c rest =>
      match rest with
      | String c' _ =>
          (Ascii.eqb c "\"%char && Ascii.eqb c' "n"%char) || has_escaped_newline rest
      | EmptyString => false
      end
  end.

(** * Properties *)

(** ** The store *)

Section StoreFacts.

Implicit Types (us : list (string * Firestore.UserDoc)) (d : Firestore.UserDoc).

Lemma eqb_string_eq (a b : string) : String.eqb a b = true <-> a = b.
Proof. apply String.eqb_eq. Qed.

Lemma eqb_string_neq (a b : string) : String.eqb a b = false <-> a <> b.
Proof. apply String.eqb_neq. Qed.

(** A document a query returns is in the collection, under its id. *)
Lemma where_In cid us k d :
  In (k, d) (Firestore.where_stripeCustomerId cid us) ->
  In (k, d) us /\ Firestore.stripeCustomerId d = Some cid.
Proof.
  unfold Firestore.where_stripeCustomerId. rewrite filter_In. simpl.
  intros [Hin Hm]. split; [exact Hin|].
  destruct (Firestore.stripeCustomerId d) as [c|]; [|discriminate].
  apply eqb_string_eq in Hm. now subst.
Qed.

(** With unique ids, the first document of a query is the document
    stored under its id. *)
Lemma where_head_get cid us k d rest :
  NoDup (map fst us) ->
  Firestore.where_stripeCustomerId cid us = (k, d) :: rest ->
  Firestore.get k us = Some d.
Proof.
  induction us as [|[k0 d0] us IH]; simpl; intros Hnd Hq; [discriminate|].
  inversion Hnd as [|? ? Hnotin Hnd']; subst.
  destruct (match Firestore.stripeCustomerId d0 with
            | Some c => String.eqb c cid | None => false end) eqn:Hm.
  - injection Hq as -> -> _. now rewrite String.eqb_refl.
  - assert (Hin : In (k, d) us).
    { apply (where_In cid). rewrite Hq. now left. }
    destruct (String.eqb k0 k) eqn:Hk.
    + apply eqb_string_eq in Hk. subst k0. exfalso. apply Hnotin.
      apply list_elem_of_In. apply (in_map fst) in Hin. exact Hin.
    + now apply IH.
Qed.

(** [update] rewrites the document under [id] and no other. *)
Lemma update_get id f us us' k :
  Firestore.update id f us = Some us' ->
  Firestore.get k us' =
    if String.eqb k id then option_map f (Firestore.get k us)
    else Firestore.get k us.
Proof.
  revert us'. induction us as [|[k0 d0] us IH]; simpl; intros us' Hu; [discriminate|].
  destruct (String.eqb k0 id) eqn:H0.
  - injection Hu as <-. simpl. apply eqb_string_eq in H0. subst k0.
    destruct (String.eqb id k) eqn:Hk.
    + apply eqb_string_eq in Hk. subst k. now rewrite String.eqb_refl.
    + rewrite String.eqb_sym, Hk. reflexivity.
  - destruct (Firestore.update id f us) as [rest'|]; [|discriminate].
    injection Hu as <-. simpl.
    destruct (String.eqb k0 k) eqn:Hk.
    + apply eqb_string_eq in Hk. subst k0. now rewrite H0.
    + now apply IH.
Qed.

Lemma update_keys id f us us' :
  Firestore.update id f us = Some us' -> map fst us' = map fst us.
Proof.
  revert us'. induction us as [|[k0 d0] us IH]; simpl; intros us' Hu; [discriminate|].
  destruct (String.eqb k0 id).
  - now injection Hu as <-.
  - destruct (Firestore.update id f us) as [rest'|]; [|discriminate].
    injection Hu as <-. simpl. f_equal. now apply IH.
Qed.

(** [update] succeeds exactly on the documents that exist. *)
Lemma update_exists id f us d :
  Firestore.get id us = Some d -> exists us', Firestore.update id f us = Some us'.
Proof.
  induction us as [|[k0 d0] us IH]; simpl; [discriminate|].
  destruct (String.eqb k0 id); [eauto|].
  intros Hg. destruct (IH Hg) as [rest' ->]. eauto.
Qed.

Lemma update_missing id f us :
  Firestore.get id us = None -> Firestore.update id f us = None.
Proof.
  induction us as [|[k0 d0] us IH]; simpl; [reflexivity|].
  destruct (String.eqb k0 id); [discriminate|].
  intros Hg. now rewrite (IH Hg).
Qed.

(** An update that keeps [stripeCustomerId] keeps the answer to a query,
    up to the rewritten document. *)
Lemma where_update_head cid f us us' k d rest :
  (forall x, Firestore.stripeCustomerId (f x) = Firestore.stripeCustomerId x) ->
  NoDup (map fst us) ->
  Firestore.where_stripeCustomerId cid us = (k, d) :: rest ->
  Firestore.update k f us = Some us' ->
  Firestore.where_stripeCustomerId cid us' = (k, f d) :: rest.
Proof.
  intros Hf. revert us'.
  induction us as [|[k0 d0] us IH]; simpl; intros us' Hnd Hq Hu; [discriminate|].
  inversion Hnd as [|? ? Hnotin Hnd']; subst.
  destruct (match Firestore.stripeCustomerId d0 with
            | Some c => String.eqb c cid | None => false end) eqn:Hm.
  - injection Hq as -> -> <-. rewrite String.eqb_refl in Hu.
    injection Hu as <-. simpl. now rewrite Hf, Hm.
  - assert (Hin : In (k, d) us).
    { apply (where_In cid). rewrite Hq. now left. }
    destruct (String.eqb k0 k) eqn:Hk.
    + apply eqb_string_eq in Hk. subst k0. exfalso. apply Hnotin.
      apply list_elem_of_In. apply (in_map fst) in Hin. exact Hin.
    + destruct (Firestore.update k f us) as [rest'|] eqn:Hu'; [|discriminate].
      injection Hu as <-. simpl. rewrite Hm. now apply IH.
Qed.

End StoreFacts.

(** ** The webhook *)

Section WebhookFacts.

Variable stripe : Stripe.Processor.
Variable JSON_parse : string -> Result Stripe.Event.
Variable webhookSecret : option string.

(** Once the body is decoded, the response only depends on whether the
    dispatch threw. *)
Lemma webhook_decoded clk body sig event w :
  decode stripe JSON_parse webhookSecret body sig = Ret event ->
  webhook stripe JSON_parse webhookSecret clk body sig w =
    match dispatch clk event w with
    | (Ret _, w') => (json 200 body_received, w')
    | (Throw e, w') => (send 400 ("Webhook Error: " ++ e), w')
    end.
Proof.
  intros Hd. unfold webhook, route, bind, eval. rewrite Hd.
  destruct (dispatch clk event w) as [[[]|e] w']; reflexivity.
Qed.

Lemma dispatch_payment_succeeded clk event w :
  Stripe.type event = "invoice.payment_succeeded" ->
  dispatch clk event w =
    match Firestore.where_stripeCustomerId
            (Stripe.customer (Stripe.data_object event)) (Firestore.users (db w)) with
    | userDoc :: _ =>
        users_update (fst userDoc)
          (payment_succeeded_fields clk (Stripe.data_object event)) w
    | [] => (Ret tt, w)
    end.
Proof.
  intros Ht. unfold dispatch. rewrite Ht. simpl.
  unfold bind, users_where_stripeCustomerId.
  destruct (Firestore.where_stripeCustomerId _ _); reflexivity.
Qed.

Lemma dispatch_subscription_deleted clk event w :
  Stripe.type event = "customer.subscription.deleted" ->
  dispatch clk event w =
    match Firestore.where_stripeCustomerId
            (Stripe.customer (Stripe.data_object event)) (Firestore.users (db w)) with
    | userDoc :: _ => users_update (fst userDoc) (cancelled_fields clk) w
    | [] => (Ret tt, w)
    end.
Proof.
  intros Ht. unfold dispatch. rewrite Ht. simpl.
  unfold bind, users_where_stripeCustomerId.
  destruct (Firestore.where_stripeCustomerId _ _); reflexivity.
Qed.

(** On a well-formed store the update of a document just found by a
    query goes through. *)
Lemma users_update_found cid f w uid d rest :
  Firestore.wf (db w) ->
  Firestore.where_stripeCustomerId cid (Firestore.users (db w)) = (uid, d) :: rest ->
  exists us',
    Firestore.update uid f (Firestore.users (db w)) = Some us' /\
    users_update uid f w = (Ret tt, set_users us' w).
Proof.
  intros Hwf Hq. pose proof (where_head_get _ _ _ _ _ Hwf Hq) as Hg.
  destruct (update_exists uid f _ _ Hg) as [us' Hu].
  exists us'. split; [exact Hu|]. unfold users_update. now rewrite Hu.
Qed.

End WebhookFacts.

Section HistoryFacts.

Implicit Types (e : Firestore.PaymentEntry) (h : list Firestore.PaymentEntry).


Lemma arrayUnion_present e h :
  existsb (Firestore.entry_eqb e) h = true -> Firestore.arrayUnion e h = h.
Proof. unfold Firestore.arrayUnion. now intros ->. Qed.

(** [arrayUnion] never drops or rewrites what is there. *)
Lemma arrayUnion_prefix e h : h `prefix_of` Firestore.arrayUnion e h.
Proof.
  unfold Firestore.arrayUnion. destruct (existsb _ h).
  - reflexivity.
  - now apply prefix_app_r.
Qed.










End HistoryFacts.

(** A successful [update] rewrites one document of the world and nothing
    else. *)
Lemma set_users_rewrites_only uid f d us' w :
  Firestore.get uid (Firestore.users (db w)) = Some d ->
  Firestore.update uid f (Firestore.users (db w)) = Some us' ->
  rewrites_only uid d (f d) w (set_users us' w).
Proof.
  intros Hg Hu. unfold rewrites_only, set_users; simpl.
  split; [exact Hg|]. split.
  { rewrite (update_get _ _ _ _ uid Hu), String.eqb_refl, Hg. reflexivity. }
  split.
  { intros k Hk. rewrite (update_get _ _ _ _ k Hu).
    apply eqb_string_neq in Hk. now rewrite Hk. }
  split; [now apply (update_keys uid f)|]. repeat split.
Qed.

Section WebhookClaims.

Variable stripe : Stripe.Processor.
Variable JSON_parse : string -> Result Stripe.Event.
Variable webhookSecret : option string.

(** C1. When a webhook secret is configured and the verification of the
    raw body against the signature header fails, the handler answers
    with an error response (status 400, the failure message in the
    text) and leaves the whole world as it was: no document, collection
    or processor request changes. *)
Theorem webhook_invalid_signature_rejected clk body sig message w :
  truthy webhookSecret = true ->
  Stripe.constructEvent stripe body sig (string_of webhookSecret) = Throw message ->
  webhook stripe JSON_parse webhookSecret clk body sig w
  = (send 400 ("Webhook Error: " ++ message), w).
Proof.
  intros Hs Hv. unfold webhook, route, bind, eval, decode.
  rewrite Hs, Hv. reflexivity.
Qed.

(** The run of the handler on a paid invoice whose customer is known. *)
Lemma webhook_payment_succeeded clk body sig event w uid d rest :
  Firestore.wf (db w) ->
  decode stripe JSON_parse webhookSecret body sig = Ret event ->
  Stripe.type event = "invoice.payment_succeeded" ->
  Firestore.where_stripeCustomerId (Stripe.customer (Stripe.data_object event))
    (Firestore.users (db w)) = (uid, d) :: rest ->
  exists us',
    Firestore.update uid (payment_succeeded_fields clk (Stripe.data_object event))
      (Firestore.users (db w)) = Some us' /\
    webhook stripe JSON_parse webhookSecret clk body sig w
    = (json 200 body_received, set_users us' w).
Proof.
  intros Hwf Hd Ht Hq.
  destruct (users_update_found _
              (payment_succeeded_fields clk (Stripe.data_object event))
              _ _ _ _ Hwf Hq) as (us' & Hu & Hrun).
  exists us'. split; [exact Hu|].
  rewrite (webhook_decoded _ _ _ _ _ _ _ _ Hd).
  rewrite (dispatch_payment_succeeded _ _ _ Ht), Hq. simpl.
  now rewrite Hrun.
Qed.

(** C2 (amended). For an authenticated [invoice.payment_succeeded] event
    whose customer id matches at least one user record, the handler
    acknowledges and rewrites exactly the first matching record: the
    status becomes [active], the last-payment time is stamped, and the
    entry (date = processing time, amount = paid amount / 100, invoice
    id) is added at the end of the payment history unless an equal entry
    is already in it, in which case the history stays as it is. *)
Theorem payment_succeeded_updates_first_match clk body sig event w uid d rest :
  Firestore.wf (db w) ->
  decode stripe JSON_parse webhookSecret body sig = Ret event ->
  Stripe.type event = "invoice.payment_succeeded" ->
  Firestore.where_stripeCustomerId (Stripe.customer (Stripe.data_object event))
    (Firestore.users (db w)) = (uid, d) :: rest ->
  let invoice := Stripe.data_object event in
  let entry :=
    {| Firestore.date := now clk;
       Firestore.amount := inject_Z (Stripe.amount_paid invoice) / 100;
       Firestore.invoiceId := Stripe.id invoice |} in
  exists w' d',
    webhook stripe JSON_parse webhookSecret clk body sig w = (json 200 body_received, w') /\
    rewrites_only uid d d' w w' /\
    Firestore.subscriptionStatus d' = Some "active" /\
    Firestore.lastPayment d' = Some (serverTimestamp clk) /\
    Firestore.paymentHistory d' =
      (if existsb (Firestore.entry_eqb entry) (Firestore.paymentHistory d)
       then Firestore.paymentHistory d
       else Firestore.paymentHistory d ++ [entry]) /\
    Firestore.stripeCustomerId d' = Firestore.stripeCustomerId d /\
    Firestore.subscriptionId d' = Firestore.subscriptionId d /\
    Firestore.subscriptionUpdatedAt d' = Firestore.subscriptionUpdatedAt d /\
    Firestore.cancelAtPeriodEnd d' = Firestore.cancelAtPeriodEnd d /\
    Firestore.updatedAt d' = Firestore.updatedAt d /\
    Firestore.subscriptionEndedAt d' = Firestore.subscriptionEndedAt d.
Proof.
  intros Hwf Hd Ht Hq invoice entry.
  destruct (webhook_payment_succeeded clk _ _ _ _ _ _ _ Hwf Hd Ht Hq)
    as (us' & Hu & Hrun).
  exists (set_users us' w), (payment_succeeded_fields clk invoice d).
  split; [exact Hrun|]. split.
  { apply set_users_rewrites_only; [|exact Hu].
    exact (where_head_get _ _ _ _ _ Hwf Hq). }
  repeat split.
Qed.


(** C4. For an authenticated [invoice.payment_succeeded] event whose
    customer id matches no user record, the handler changes nothing in
    the world and still acknowledges with [{received: true}]. *)
Theorem payment_succeeded_unknown_customer clk body sig event w :
  decode stripe JSON_parse webhookSecret body sig = Ret event ->
  Stripe.type event = "invoice.payment_succeeded" ->
  Firestore.where_stripeCustomerId (Stripe.customer (Stripe.data_object event))
    (Firestore.users (db w)) = [] ->
  webhook stripe JSON_parse webhookSecret clk body sig w = (json 200 body_received, w).
Proof.
  intros Hd Ht Hq.
  rewrite (webhook_decoded _ _ _ _ _ _ _ _ Hd).
  now rewrite (dispatch_payment_succeeded _ _ _ Ht), Hq.
Qed.

(** C5. For an authenticated [customer.subscription.deleted] event: when
    its customer id matches exactly one user record, the handler sets
    that record's status to [cancelled] and stamps the
    subscription-ended time, touching nothing else; when it matches no
    record, the world is left unchanged.  Both are acknowledged. *)
Theorem subscription_deleted_reconciled clk body sig event w :
  decode stripe JSON_parse webhookSecret body sig = Ret event ->
  Stripe.type event = "customer.subscription.deleted" ->
  let matches :=
    Firestore.where_stripeCustomerId (Stripe.customer (Stripe.data_object event))
      (Firestore.users (db w)) in
  (forall uid d,
      Firestore.wf (db w) -> matches = [(uid, d)] ->
      exists w' d',
        webhook stripe JSON_parse webhookSecret clk body sig w
        = (json 200 body_received, w') /\
        rewrites_only uid d d' w w' /\
        Firestore.subscriptionStatus d' = Some "cancelled" /\
        Firestore.subscriptionEndedAt d' = Some (serverTimestamp clk) /\
        Firestore.stripeCustomerId d' = Firestore.stripeCustomerId d /\
        Firestore.subscriptionId d' = Firestore.subscriptionId d /\
        Firestore.subscriptionUpdatedAt d' = Firestore.subscriptionUpdatedAt d /\
        Firestore.cancelAtPeriodEnd d' = Firestore.cancelAtPeriodEnd d /\
        Firestore.updatedAt d' = Firestore.updatedAt d /\
        Firestore.lastPayment d' = Firestore.lastPayment d /\
        Firestore.paymentHistory d' = Firestore.paymentHistory d) /\
  (matches = [] ->
   webhook stripe JSON_parse webhookSecret clk body sig w
   = (json 200 body_received, w)).
Proof.
  intros Hd Ht matches. subst matches. split.
  - intros uid d Hwf Hq.
    destruct (users_update_found _ (cancelled_fields clk) _ _ _ _ Hwf Hq)
      as (us' & Hu & Hrun).
    exists (set_users us' w), (cancelled_fields clk d).
    split.
    { rewrite (webhook_decoded _ _ _ _ _ _ _ _ Hd).
      rewrite (dispatch_subscription_deleted _ _ _ Ht), Hq. simpl.
      now rewrite Hrun. }
    split.
    { apply set_users_rewrites_only; [|exact Hu].
      exact (where_head_get _ _ _ _ _ Hwf Hq). }
    repeat split.
  - intros Hq.
    rewrite (webhook_decoded _ _ _ _ _ _ _ _ Hd).
    now rewrite (dispatch_subscription_deleted _ _ _ Ht), Hq.
Qed.

End WebhookClaims.

(** *** The webhook on the sample data *)

Lemma three_users_wf : Firestore.wf (db Sample.three_users).
Proof. unfold Firestore.wf. apply (bool_decide_unpack _). vm_compute. reflexivity. Qed.

Lemma webhook_invalid_signature_rejected_witness :
  truthy (Some "whsec_1") = true /\
  webhook Sample.accepting Sample.parse (Some "whsec_1") Sample.clock1
    "paid" (Some "forged") Sample.three_users
  = (send 400
       "Webhook Error: No signatures found matching the expected signature for payload.",
     Sample.three_users).
Proof.
  split; [reflexivity|].
  apply (webhook_invalid_signature_rejected Sample.accepting Sample.parse
           (Some "whsec_1") Sample.clock1 "paid" (Some "forged")); reflexivity.
Defined.

Lemma payment_succeeded_updates_first_match_witness :
  exists w' d',
    webhook Sample.accepting Sample.parse (Some "whsec_1") Sample.clock1
      "paid" (Some "good") Sample.three_users = (json 200 body_received, w') /\
    rewrites_only "u1" (Sample.linked "cus_1" []) d' Sample.three_users w' /\
    Firestore.subscriptionStatus d' = Some "active" /\
    Firestore.paymentHistory d' = [Sample.entry1].
Proof.
  destruct (payment_succeeded_updates_first_match Sample.accepting Sample.parse
              (Some "whsec_1") Sample.clock1 "paid" (Some "good")
              Sample.invoice_paid Sample.three_users
              "u1" (Sample.linked "cus_1" []) [("u2", Sample.linked "cus_1" [])]
              three_users_wf eq_refl eq_refl eq_refl)
    as (w' & d' & Hrun & Hrw & Hst & _ & Hh & _).
  exists w', d'. split; [exact Hrun|]. split; [exact Hrw|].
  split; [exact Hst | exact Hh].
Defined.


Lemma payment_succeeded_unknown_customer_witness :
  Firestore.where_stripeCustomerId "cus_9" (Firestore.users (db Sample.three_users)) = [] /\
  webhook Sample.accepting Sample.parse (Some "whsec_1") Sample.clock1
    "paid-stranger" (Some "good") Sample.three_users
  = (json 200 body_received, Sample.three_users).
Proof.
  split; [reflexivity|].
  apply (payment_succeeded_unknown_customer Sample.accepting Sample.parse
           (Some "whsec_1") Sample.clock1 "paid-stranger" (Some "good")
           Sample.invoice_paid_stranger); reflexivity.
Defined.

Lemma subscription_deleted_reconciled_witness :
  (exists w' d',
      webhook Sample.accepting Sample.parse (Some "whsec_1") Sample.clock1
        "deleted" (Some "good") (Sample.recorded [Sample.entry1])
      = (json 200 body_received, w') /\
      rewrites_only "u1" (Sample.linked "cus_1" [Sample.entry1]) d'
        (Sample.recorded [Sample.entry1]) w' /\
      Firestore.subscriptionStatus d' = Some "cancelled" /\
      Firestore.subscriptionEndedAt d' = Some (serverTimestamp Sample.clock1)) /\
  webhook Sample.accepting Sample.parse (Some "whsec_1") Sample.clock1
    "deleted-stranger" (Some "good") Sample.three_users
  = (json 200 body_received, Sample.three_users).
Proof.
  split.
  - destruct (subscription_deleted_reconciled Sample.accepting Sample.parse
                (Some "whsec_1") Sample.clock1 "deleted" (Some "good")
                (Sample.subscription_deleted "cus_1")
                (Sample.recorded [Sample.entry1]) eq_refl eq_refl) as [Hone _].
    assert (Hwf : Firestore.wf (db (Sample.recorded [Sample.entry1]))).
    { unfold Firestore.wf. apply (bool_decide_unpack _). vm_compute. reflexivity. }
    destruct (Hone "u1" (Sample.linked "cus_1" [Sample.entry1]) Hwf eq_refl)
      as (w' & d' & Hrun & Hrw & Hst & Hend & _).
    exists w', d'. split; [exact Hrun|]. split; [exact Hrw|].
    split; [exact Hst | exact Hend].
  - destruct (subscription_deleted_reconciled Sample.accepting Sample.parse
                (Some "whsec_1") Sample.clock1 "deleted-stranger" (Some "good")
                (Sample.subscription_deleted "cus_9")
                Sample.three_users eq_refl eq_refl) as [_ Hnone].
    apply Hnone. reflexivity.
Defined.

(** C2, as stated, fails when the history already holds an equal entry: a
    second delivery processed at the same instant finds
    [{date, amount, invoiceId}] in the array, and [arrayUnion] adds
    nothing. *)
Lemma payment_succeeded_equal_entry_not_appended :
  let w := Sample.recorded [Sample.entry1] in
  let run :=
    webhook Sample.accepting Sample.parse (Some "whsec_1") Sample.clock1
      "paid" (Some "good") w in
  let after :=
    option_map Firestore.paymentHistory
      (Firestore.get "u1" (Firestore.users (db (snd run)))) in
  decode Sample.accepting Sample.parse (Some "whsec_1") "paid" (Some "good")
  = Ret Sample.invoice_paid /\
  Firestore.where_stripeCustomerId "cus_1" (Firestore.users (db w))
  = [("u1", Sample.linked "cus_1" [Sample.entry1])] /\
  fst run = json 200 body_received /\
  after = Some [Sample.entry1] /\
  after <> Some ([Sample.entry1]
                 ++ [history_entry Sample.clock1 (Stripe.data_object Sample.invoice_paid)]).
Proof. vm_compute. repeat split; discriminate. Qed.


(** ** References to user documents *)

Section DocFacts.

(** The id of a stored document refers to that document. *)
Lemma users_doc_stored path w d :
  Firestore.get path (Firestore.users (db w)) = Some d ->
  users_doc path w = (Ret (Firestore.in_users path), w).
Proof. unfold users_doc. now intros ->. Qed.

Lemma doc_get_stored path w d :
  Firestore.get path (Firestore.users (db w)) = Some d ->
  doc_get path w = (Ret (Some d), w).
Proof.
  intros Hg. unfold doc_get, bind. rewrite (users_doc_stored _ _ _ Hg).
  unfold users_get. now rewrite Hg.
Qed.

Lemma doc_update_stored path f w d :
  Firestore.get path (Firestore.users (db w)) = Some d ->
  doc_update path f w = users_update path f w.
Proof.
  intros Hg. unfold doc_update, bind. now rewrite (users_doc_stored _ _ _ Hg).
Qed.

(** Reading a reference or a document changes nothing. *)
Lemma users_doc_world path w : users_doc path w = (fst (users_doc path w), w).
Proof. unfold users_doc. now destruct (Firestore.get path _). Qed.

Lemma doc_get_world path w : doc_get path w = (fst (doc_get path w), w).
Proof.
  unfold doc_get, bind, users_doc, users_get, ret.
  destruct (Firestore.get path _); [reflexivity|].
  destruct (Firestore.doc (db w) path) as [[id|data]|e]; reflexivity.
Qed.

(** A path that names no document, in the collection or below it, still
    names none as long as the store is the same: an update of it throws
    NOT_FOUND and writes nothing. *)
Lemma doc_update_absent path f w0 w :
  fst (doc_get path w0) = Ret None ->
  db w = db w0 ->
  exists p, doc_update path f w = (Throw (Firestore.not_found p), w).
Proof.
  unfold doc_get, doc_update, bind, users_doc, users_get, users_update, ret, throw.
  intros Hg Hdb. rewrite Hdb.
  destruct (Firestore.get path (Firestore.users (db w0))) eqn:Hp; simpl in Hg;
    [rewrite Hp in Hg; discriminate|].
  destruct (Firestore.doc (db w0) path) as [[id|[d|]]|e]; simpl in *; try discriminate.
  - injection Hg as Hid. rewrite Hdb, (update_missing _ _ _ Hid). eauto.
  - eauto.
Qed.

(** A path that the client refuses is refused whatever is done with it. *)
Lemma doc_update_refused path f w0 w message :
  fst (doc_get path w0) = Throw message ->
  db w = db w0 ->
  doc_update path f w = (Throw message, w).
Proof.
  unfold doc_get, doc_update, bind, users_doc, users_get, users_update, ret, throw.
  intros Hg Hdb. rewrite Hdb.
  destruct (Firestore.get path (Firestore.users (db w0))) eqn:Hp; simpl in Hg;
    [discriminate|].
  destruct (Firestore.doc (db w0) path) as [[id|[d|]]|e]; simpl in *; try discriminate.
  now injection Hg as ->.
Qed.

End DocFacts.

(** ** create-subscription *)

Section CreateSubscriptionFacts.

Variable stripe : Stripe.Processor.

(** The attach step always returns: its [catch] swallows whatever the
    processor answers; only the trace remembers the request. *)
Lemma attach_returns paymentMethodId customer w :
  attach stripe paymentMethodId customer w =
    (Ret tt,
     {| db := db w;
        calls := calls w ++
          [(Stripe.paymentMethods_attach paymentMethodId (Stripe.customer_id customer),
            is_ret (Stripe.attach_payment_method stripe (calls w) paymentMethodId
                      (Stripe.customer_id customer)))] |}).
Proof.
  unfold attach, try_catch, request, ret.
  destruct (Stripe.attach_payment_method stripe (calls w) paymentMethodId
              (Stripe.customer_id customer)) as [[]|e]; reflexivity.
Qed.

(** When the read of the user document shows no usable customer id,
    step 1 is one creation request. *)
Lemma get_or_create_customer_new paymentMethodId userId userEmail userName w existing :
  read_customer_id userId w = Ret existing ->
  truthy existing = false ->
  get_or_create_customer stripe paymentMethodId userId userEmail userName w =
    new_customer stripe paymentMethodId userId userEmail userName w.
Proof.
  unfold read_customer_id, get_or_create_customer, bind. intros Hr Ht.
  rewrite (doc_get_world userId w). simpl.
  destruct (fst (doc_get userId w)) as [[d|]|e]; [| |discriminate];
    injection Hr as <-; now rewrite Ht.
Qed.

(** When the read of the user document throws, so does step 1, before any
    request. *)
Lemma get_or_create_customer_refused paymentMethodId userId userEmail userName w message :
  fst (doc_get userId w) = Throw message ->
  get_or_create_customer stripe paymentMethodId userId userEmail userName w =
    (Throw message, w).
Proof.
  unfold get_or_create_customer, bind. intros Hr.
  rewrite (doc_get_world userId w), Hr. reflexivity.
Qed.

(** With a customer id on record that the processor still knows, step 1
    is one retrieval. *)
Lemma get_or_create_customer_retrieved paymentMethodId userId userEmail userName w
    existing c :
  read_customer_id userId w = Ret existing ->
  truthy existing = true ->
  Stripe.retrieve_customer stripe (calls w) (string_of existing) = Ret c ->
  get_or_create_customer stripe paymentMethodId userId userEmail userName w =
    (Ret c,
     {| db := db w;
        calls := calls w ++ [(Stripe.customers_retrieve (string_of existing), true)] |}).
Proof.
  unfold read_customer_id, get_or_create_customer, bind. intros Hr Ht Hc.
  rewrite (doc_get_world userId w). simpl.
  destruct (fst (doc_get userId w)) as [[d|]|e]; [| |discriminate];
    injection Hr as <-; rewrite Ht; unfold try_catch, request; now rewrite Hc.
Qed.


End CreateSubscriptionFacts.

(** Unfold a route down to the store and processor primitives. *)
Ltac unfold_route :=
  unfold create_subscription, cancel_subscription, route, subscribe, save_card,
    read_client_secret, get_or_create_customer, new_customer, attach,
    doc_get, doc_update in *;
  unfold try_catch, bind, request, users_doc, users_get, users_update,
    payment_methods_add, payment_logs_add, ret, throw, set_users in *;
  simpl in *.

(** A call that the processor is assumed to accept cannot have thrown. *)
Ltac refute_throw A :=
  match goal with
  | H : ?r = Throw _ |- _ =>
      let X := fresh in
      assert (X : is_ret r = true) by apply A;
      rewrite H in X; discriminate X
  end.

(** The requests of a run, as a suffix of the trace. *)
Ltac suffix :=
  rewrite <- ?app_assoc; eexists; split; [reflexivity|];
  unfold Stripe.customers_requested, Stripe.customers_created,
    Stripe.subscriptions_requested, Stripe.subscriptions_created;
  simpl.

Section TraceFacts.

Implicit Types a b : Stripe.Trace.

Lemma customers_requested_app a b :
  Stripe.customers_requested (a ++ b)
  = Stripe.customers_requested a + Stripe.customers_requested b.
Proof. unfold Stripe.customers_requested. now rewrite List.filter_app, length_app. Qed.

Lemma customers_created_app a b :
  Stripe.customers_created (a ++ b)
  = Stripe.customers_created a + Stripe.customers_created b.
Proof. unfold Stripe.customers_created. now rewrite List.filter_app, length_app. Qed.

Lemma subscriptions_requested_app a b :
  Stripe.subscriptions_requested (a ++ b)
  = Stripe.subscriptions_requested a + Stripe.subscriptions_requested b.
Proof. unfold Stripe.subscriptions_requested. now rewrite List.filter_app, length_app. Qed.

Lemma subscriptions_created_app a b :
  Stripe.subscriptions_created (a ++ b)
  = Stripe.subscriptions_created a + Stripe.subscriptions_created b.
Proof. unfold Stripe.subscriptions_created. now rewrite List.filter_app, length_app. Qed.

End TraceFacts.

Section CreateSubscriptionClaims.

Variable stripe : Stripe.Processor.

(** Steps 3 to 9 ask for no customer and for at most one subscription;
    when the processor accepts the two requests as they come, for exactly
    one, which is created. *)
Lemma subscribe_requests paymentMethodId priceId userId saveCard clk customer w :
  exists new,
    calls (snd (subscribe stripe paymentMethodId priceId userId saveCard clk customer w))
    = calls w ++ new /\
    Stripe.customers_requested new = 0 /\
    Stripe.customers_created new = 0 /\
    Stripe.subscriptions_requested new <= 1 /\
    (is_ret
       match Stripe.update_customer stripe (calls w) (Stripe.customer_id customer)
               paymentMethodId with
       | Throw message => Throw message
       | Ret _ =>
           Stripe.create_subscription stripe
             (calls w ++ [(Stripe.customers_update (Stripe.customer_id customer)
                             paymentMethodId, true)])
             (Stripe.customer_id customer) priceId userId
       end = true ->
     Stripe.subscriptions_requested new = 1 /\ Stripe.subscriptions_created new = 1).
Proof.
  unfold_route.
  destruct (Stripe.update_customer stripe (calls w) (Stripe.customer_id customer)
              paymentMethodId) as [[]|e1]; simpl;
    [|suffix; repeat split; try lia; discriminate].
  destruct (Stripe.create_subscription stripe _ (Stripe.customer_id customer)
              priceId userId) as [s|e2]; simpl;
    [|suffix; repeat split; try lia; discriminate].
  repeat (case_match; simpl in *; simplify_eq); suffix;
    (split; [reflexivity|]; split; [reflexivity|]; split; [lia|]);
    intros _; split; reflexivity.
Qed.

(** Steps 3 to 9 for a user whose path names no document: they end in a
    throw and write nothing; when the processor accepts the two requests
    and returns a payment intent, the throw is the NOT_FOUND of the
    persist step. *)
Lemma subscribe_absent paymentMethodId priceId userId saveCard clk customer w0 w :
  fst (doc_get userId w0) = Ret None ->
  db w = db w0 ->
  let run := subscribe stripe paymentMethodId priceId userId saveCard clk customer w in
  (exists message, fst run = Throw message) /\
  db (snd run) = db w /\
  (forall subscription,
      match Stripe.update_customer stripe (calls w) (Stripe.customer_id customer)
              paymentMethodId with
      | Throw message => Throw message
      | Ret _ =>
          Stripe.create_subscription stripe
            (calls w ++ [(Stripe.customers_update (Stripe.customer_id customer)
                            paymentMethodId, true)])
            (Stripe.customer_id customer) priceId userId
      end = Ret subscription ->
      has_payment_intent subscription = true ->
      (exists path, fst run = Throw (Firestore.not_found path)) /\
      calls (snd run) = calls w ++
        [(Stripe.customers_update (Stripe.customer_id customer) paymentMethodId, true);
         (Stripe.subscriptions_create (Stripe.customer_id customer) priceId userId, true)]).
Proof.
  intros Hg Hdb run.
  assert (Hrun : run = subscribe stripe paymentMethodId priceId userId saveCard
                         clk customer w) by reflexivity.
  clearbody run.
  unfold subscribe, bind at 1, request in Hrun. cbv beta in Hrun.
  destruct (Stripe.update_customer stripe (calls w) (Stripe.customer_id customer)
              paymentMethodId) as [[]|e1] eqn:H1; rewrite ?H1 in Hrun; simpl in Hrun.
  2:{ subst run; simpl. split; [eauto|]. split; [reflexivity|].
      intros s' Hs. discriminate Hs. }
  unfold bind at 1 in Hrun. cbv beta in Hrun. simpl calls in Hrun.
  destruct (Stripe.create_subscription stripe _ (Stripe.customer_id customer)
              priceId userId) as [s|e2] eqn:H2; rewrite ?H2 in Hrun; simpl in Hrun.
  2:{ subst run; simpl. split; [eauto|]. split; [reflexivity|].
      intros s' Hs. discriminate Hs. }
  unfold bind at 1, read_client_secret, throw, ret in Hrun.
  unfold has_payment_intent.
  destruct (Stripe.latest_invoice s) as [i|] eqn:H3; simpl in Hrun.
  2:{ subst run; simpl. split; [eauto|]. split; [reflexivity|].
      intros s' [= <-]. rewrite H3. discriminate. }
  destruct (Stripe.payment_intent i) as [pi|] eqn:H4; simpl in Hrun.
  2:{ subst run; simpl. split; [eauto|]. split; [reflexivity|].
      intros s' [= <-]. rewrite H3, H4. discriminate. }
  unfold bind at 1 in Hrun.
  match type of Hrun with
  | context [doc_update userId ?f ?w3] =>
      destruct (doc_update_absent userId f w0 w3 Hg) as [p Hp]; [exact Hdb|];
      rewrite Hp in Hrun
  end; simpl in Hrun.
  subst run; simpl.
  split; [eauto|]. split; [reflexivity|]. intros s' _ _.
  split; [eauto|]. now rewrite <- app_assoc.
Qed.

(** C6 (amended). In create-subscription, whatever the processor answers
    to the attach request (success, an already-attached error or any other
    error), the attach step returns normally and changes nothing but the
    trace; the call goes on with the remaining steps (default payment
    method, subscription, persistence), and its response is the one those
    steps produce. *)
Theorem attach_error_not_fatal clk paymentMethodId priceId userId saveCard
    userEmail userName w customer w1 :
  get_or_create_customer stripe paymentMethodId userId userEmail userName w
  = (Ret customer, w1) ->
  let answer :=
    Stripe.attach_payment_method stripe (calls w1) paymentMethodId
      (Stripe.customer_id customer) in
  let w2 :=
    {| db := db w1;
       calls := calls w1 ++
         [(Stripe.paymentMethods_attach paymentMethodId (Stripe.customer_id customer),
           is_ret answer)] |} in
  attach stripe paymentMethodId customer w1 = (Ret tt, w2) /\
  create_subscription stripe clk paymentMethodId priceId userId saveCard
    userEmail userName w
  = route (subscribe stripe paymentMethodId priceId userId saveCard clk customer)
      (fun message => json 400 (body_error message)) w2.
Proof.
  intros Hc answer w2. split; [apply attach_returns|].
  unfold create_subscription, route, bind. rewrite Hc, attach_returns. reflexivity.
Qed.

(** C7 (amended). For a create-subscription request whose user id the
    store reads as a document reference and whose user record holds no
    processor customer id, the call sends exactly one customer-creation
    request and at most one subscription-creation request; when the
    processor accepts, in this call, the customer creation, the update of
    the default payment method and the subscription creation, exactly one
    customer and exactly one subscription are created.  For a user with
    an existing customer id that the processor retrieves, no customer
    creation is requested: zero new customers.  When the user id is not
    read as a document reference, the call fails before any request. *)
Theorem create_subscription_creations clk paymentMethodId priceId userId saveCard
    userEmail userName w :
  let run :=
    create_subscription stripe clk paymentMethodId priceId userId saveCard
      userEmail userName w in
  (forall existing,
      read_customer_id userId w = Ret existing ->
      truthy existing = false ->
      exists new,
        calls (snd run) = calls w ++ new /\
        Stripe.customers_requested new = 1 /\
        Stripe.subscriptions_requested new <= 1 /\
        (is_ret (new_subscription_outcome stripe (calls w) paymentMethodId priceId
                   userId userEmail userName) = true ->
         Stripe.customers_created new = 1 /\ Stripe.subscriptions_created new = 1)) /\
  (forall existing,
      read_customer_id userId w = Ret existing ->
      truthy existing = true ->
      is_ret (Stripe.retrieve_customer stripe (calls w) (string_of existing)) = true ->
      exists new,
        calls (snd run) = calls w ++ new /\
        Stripe.customers_requested new = 0 /\
        Stripe.customers_created new = 0) /\
  (forall message,
      read_customer_id userId w = Throw message ->
      run = (json 400 (body_error message), w)).
Proof.
  intros run. subst run. split; [|split].
  - intros existing Hread Hnone.
    unfold create_subscription, route, bind.
    rewrite (get_or_create_customer_new _ _ _ _ _ _ _ Hread Hnone).
    unfold new_customer, request, new_subscription_outcome.
    destruct (Stripe.create_customer stripe (calls w) userEmail userName
                paymentMethodId userId) as [c|e] eqn:Hc; simpl.
    + rewrite attach_returns.
      match goal with
      | |- context [subscribe stripe ?a ?b ?c0 ?d ?e0 ?f ?w2] =>
          destruct (subscribe_requests a b c0 d e0 f w2)
            as (new & Hcalls & Hcr & Hcc & Hsr & Hacc);
          destruct (subscribe stripe a b c0 d e0 f w2) as [[r|e] w3]
      end; simpl in *; rewrite Hcalls, <- !app_assoc;
        (eexists; split; [reflexivity|]);
        rewrite !customers_requested_app, !subscriptions_requested_app, Hcr;
        (split; [reflexivity|]; split; [simpl; lia|]);
        intros A; rewrite !app_assoc in A; destruct (Hacc A) as [_ Hsc];
        rewrite !customers_created_app, !subscriptions_created_app, Hcc, Hsc;
        split; reflexivity.
    + exists [(Stripe.customers_create userEmail userName paymentMethodId userId, false)].
      split; [reflexivity|]. split; [reflexivity|].
      split; [vm_compute; lia|]. discriminate.
  - intros existing Hread Hsome Hret.
    destruct (Stripe.retrieve_customer stripe (calls w) (string_of existing))
      as [c|e] eqn:Hr; [|discriminate].
    unfold create_subscription, route, bind.
    rewrite (get_or_create_customer_retrieved _ _ _ _ _ _ _ _ Hread Hsome Hr).
    rewrite attach_returns.
    match goal with
    | |- context [subscribe stripe ?a ?b ?c0 ?d ?e0 ?f ?w2] =>
        destruct (subscribe_requests a b c0 d e0 f w2)
          as (new & Hcalls & Hcr & Hcc & _);
        destruct (subscribe stripe a b c0 d e0 f w2) as [[r|e] w3]
    end; simpl in *; rewrite Hcalls, <- !app_assoc;
      (eexists; split; [reflexivity|]);
      rewrite !customers_requested_app, !customers_created_app, Hcr, Hcc;
      split; reflexivity.
  - intros message Hread.
    assert (Hthrow : fst (doc_get userId w) = Throw message).
    { unfold read_customer_id in Hread.
      destruct (fst (doc_get userId w)) as [[d|]|e]; congruence. }
    unfold create_subscription, route, bind.
    now rewrite (get_or_create_customer_refused _ _ _ _ _ _ _ Hthrow).
Qed.

(** C10 (amended). When the store reads the user id as a document
    reference and holds no document for it, create-subscription answers
    with an error response and writes nothing to the store; when the
    processor accepts, in this call, the customer creation, the update of
    the default payment method and the subscription creation, and returns
    a payment intent, the error is the NOT_FOUND that the persist step
    throws, and by then one customer and one subscription have been
    created at the processor.  When the user id is not read as a document
    reference, the call fails at its first step: the answer is that
    error, no request is sent and nothing is created. *)
Theorem create_subscription_missing_document clk paymentMethodId priceId userId
    saveCard userEmail userName w :
  let run :=
    create_subscription stripe clk paymentMethodId priceId userId saveCard
      userEmail userName w in
  (fst (doc_get userId w) = Ret None ->
   (exists message, fst run = json 400 (body_error message)) /\
   db (snd run) = db w /\
   (forall subscription,
       new_subscription_outcome stripe (calls w) paymentMethodId priceId
         userId userEmail userName = Ret subscription ->
       has_payment_intent subscription = true ->
       (exists path, fst run = json 400 (body_error (Firestore.not_found path))) /\
       exists new,
         calls (snd run) = calls w ++ new /\
         Stripe.customers_created new = 1 /\
         Stripe.subscriptions_created new = 1)) /\
  (forall message,
      fst (doc_get userId w) = Throw message ->
      run = (json 400 (body_error message), w)).
Proof.
  intros run. subst run. split.
  - intros Hg.
    assert (Hread : read_customer_id userId w = Ret None).
    { unfold read_customer_id. now rewrite Hg. }
    unfold create_subscription, route, bind.
    rewrite (get_or_create_customer_new _ _ _ _ _ _ _ Hread eq_refl).
    unfold new_customer, request, new_subscription_outcome.
    destruct (Stripe.create_customer stripe (calls w) userEmail userName
                paymentMethodId userId) as [c|e] eqn:Hc; simpl.
    2:{ split; [eexists; reflexivity|]. split; [reflexivity|]. discriminate. }
    rewrite attach_returns.
    match goal with
    | |- context [subscribe stripe ?a ?b ?c0 ?d ?e0 ?f ?w2] =>
        destruct (subscribe_absent a b c0 d e0 f w w2 Hg eq_refl)
          as ([m Hm] & Hdb & Hacc);
        destruct (subscribe stripe a b c0 d e0 f w2) as [[r|e] w3]
    end; simpl in *; [discriminate|].
    split; [eexists; reflexivity|]. split; [exact Hdb|].
    intros subscription Hs Hpi. destruct (Hacc subscription Hs Hpi) as [[p Hp] Hcalls].
    injection Hp as ->. split; [eexists; reflexivity|].
    rewrite Hcalls, <- !app_assoc. eexists; split; [reflexivity|].
    split; reflexivity.
  - intros message Hthrow.
    unfold create_subscription, route, bind.
    now rewrite (get_or_create_customer_refused _ _ _ _ _ _ _ Hthrow).
Qed.

End CreateSubscriptionClaims.

(** *** create-subscription on the sample data *)

Lemma attach_error_not_fatal_witness :
  let stripe := Sample.refusing_attach "Your card was declined." in
  let customer := {| Stripe.customer_id := "cus_new" |} in
  let w1 :=
    {| db := db Sample.three_users;
       calls := [(Stripe.customers_create "a@b.com" "A" "pm_1" "u3", true)] |} in
  let w2 :=
    {| db := db Sample.three_users;
       calls := calls w1 ++ [(Stripe.paymentMethods_attach "pm_1" "cus_new", false)] |} in
  attach stripe "pm_1" customer w1 = (Ret tt, w2) /\
  create_subscription stripe Sample.clock1 "pm_1" "price_1" "u3" true "a@b.com" "A"
    Sample.three_users
  = route (subscribe stripe "pm_1" "price_1" "u3" true Sample.clock1 customer)
      (fun message => json 400 (body_error message)) w2.
Proof.
  exact (attach_error_not_fatal (Sample.refusing_attach "Your card was declined.")
           Sample.clock1 "pm_1" "price_1" "u3" true "a@b.com" "A"
           Sample.three_users {| Stripe.customer_id := "cus_new" |} _ eq_refl).
Defined.

(** C6, as stated, fails: an attach error that has nothing to do with the
    method being attached already is swallowed like any other; the
    remaining steps run and the call answers with success. *)
Lemma attach_declined_call_succeeds :
  let stripe := Sample.refusing_attach "Your card was declined." in
  let run :=
    create_subscription stripe Sample.clock1 "pm_1" "price_1" "u3" true "a@b.com" "A"
      Sample.three_users in
  Stripe.attach_payment_method stripe
    [(Stripe.customers_create "a@b.com" "A" "pm_1" "u3", true)] "pm_1" "cus_new"
  = Throw "Your card was declined." /\
  fst run = json 200 (body_subscription "sub_new" "cus_new" (Some "pi_1_secret") "incomplete") /\
  calls (snd run) =
    [(Stripe.customers_create "a@b.com" "A" "pm_1" "u3", true);
     (Stripe.paymentMethods_attach "pm_1" "cus_new", false);
     (Stripe.customers_update "cus_new" "pm_1", true);
     (Stripe.subscriptions_create "cus_new" "price_1" "u3", true);
     (Stripe.paymentMethods_retrieve "pm_1", true)] /\
  option_map Firestore.subscriptionId
    (Firestore.get "u3" (Firestore.users (db (snd run)))) = Some (Some "sub_new").
Proof. vm_compute. repeat split. Qed.

Lemma create_subscription_creations_witness :
  (exists new,
      calls (snd (create_subscription Sample.accepting Sample.clock1 "pm_1" "price_1"
                    "u3" true "a@b.com" "A" Sample.three_users)) = [] ++ new /\
      Stripe.customers_requested new = 1 /\
      Stripe.customers_created new = 1 /\
      Stripe.subscriptions_created new = 1) /\
  (exists new,
      calls (snd (create_subscription Sample.accepting Sample.clock1 "pm_1" "price_1"
                    "u1" true "a@b.com" "A" Sample.three_users)) = [] ++ new /\
      Stripe.customers_requested new = 0 /\
      Stripe.customers_created new = 0) /\
  create_subscription Sample.accepting Sample.clock1 "pm_1" "price_1"
    "a/b" true "a@b.com" "A" Sample.three_users
  = (json 400
       (body_error (Sample.not_a_document "a/b")),
     Sample.three_users).
Proof.
  split; [|split].
  - destruct (create_subscription_creations Sample.accepting Sample.clock1
                "pm_1" "price_1" "u3" true "a@b.com" "A" Sample.three_users)
      as [Hnew _].
    destruct (Hnew None eq_refl eq_refl) as (new & Hcalls & Hreq & _ & Hacc).
    destruct (Hacc eq_refl) as [Hc Hs].
    exists new. split; [exact Hcalls|]. split; [exact Hreq|]. split; [exact Hc|exact Hs].
  - destruct (create_subscription_creations Sample.accepting Sample.clock1
                "pm_1" "price_1" "u1" true "a@b.com" "A" Sample.three_users)
      as (_ & Hold & _).
    exact (Hold (Some "cus_1") eq_refl eq_refl eq_refl).
  - destruct (create_subscription_creations Sample.accepting Sample.clock1
                "pm_1" "price_1" "a/b" true "a@b.com" "A" Sample.three_users)
      as (_ & _ & Hbad).
    apply Hbad. reflexivity.
Defined.

(** C7, as stated, fails when the processor refuses the customer: the
    request is for a user without a customer id, and neither a customer
    nor a subscription is created. *)
Lemma create_subscription_refused_customer :
  let run :=
    create_subscription Sample.refusing_customers Sample.clock1 "pm_1" "price_1"
      "u3" true "a@b.com" "A" Sample.three_users in
  truthy (existing_customer_id "u3" Sample.three_users) = false /\
  fst run = json 400 (body_error "No such PaymentMethod: 'pm_1'") /\
  calls (snd run) = [(Stripe.customers_create "a@b.com" "A" "pm_1" "u3", false)] /\
  Stripe.customers_created (calls (snd run)) = 0 /\
  Stripe.subscriptions_created (calls (snd run)) = 0 /\
  Stripe.subscriptions_requested (calls (snd run)) = 0.
Proof. vm_compute. repeat split. Qed.

Lemma create_subscription_missing_document_witness :
  let run :=
    create_subscription Sample.accepting Sample.clock1 "pm_1" "price_1"
      "u4" true "a@b.com" "A" Sample.three_users in
  fst (doc_get "u4" Sample.three_users) = Ret None /\
  (exists path, fst run = json 400 (body_error (Firestore.not_found path))) /\
  db (snd run) = db Sample.three_users /\
  (exists new,
      calls (snd run) = [] ++ new /\
      Stripe.customers_created new = 1 /\
      Stripe.subscriptions_created new = 1) /\
  create_subscription Sample.accepting Sample.clock1 "pm_1" "price_1"
    "" true "a@b.com" "A" Sample.three_users
  = (json 400
       (body_error Sample.empty_path),
     Sample.three_users).
Proof.
  intros run. split; [reflexivity|].
  destruct (create_subscription_missing_document Sample.accepting Sample.clock1
              "pm_1" "price_1" "u4" true "a@b.com" "A" Sample.three_users)
    as [Habsent _].
  destruct (Habsent eq_refl) as (_ & Hdb & Hacc).
  destruct (Hacc Sample.new_subscription eq_refl eq_refl) as [Hres Hnew].
  split; [exact Hres|]. split; [exact Hdb|]. split; [exact Hnew|].
  destruct (create_subscription_missing_document Sample.accepting Sample.clock1
              "pm_1" "price_1" "" true "a@b.com" "A" Sample.three_users)
    as [_ Hbad].
  apply Hbad. reflexivity.
Defined.

(** C10, as stated, fails in two ways.  With the empty string as user id
    the store holds no document, and the call fails at its first step,
    where the client refuses the path: no request is sent and nothing is
    created.  With a processor that refuses the customer, the call for a
    user without a document fails with the processor's error, again with
    no customer and no subscription created. *)
Lemma create_subscription_nothing_created :
  let invalid :=
    create_subscription Sample.accepting Sample.clock1 "pm_1" "price_1"
      "" true "a@b.com" "A" Sample.three_users in
  let refused :=
    create_subscription Sample.refusing_customers Sample.clock1 "pm_1" "price_1"
      "u4" true "a@b.com" "A" Sample.three_users in
  Firestore.get "" (Firestore.users (db Sample.three_users)) = None /\
  fst invalid =
    json 400
      (body_error Sample.empty_path) /\
  calls (snd invalid) = [] /\
  Firestore.get "u4" (Firestore.users (db Sample.three_users)) = None /\
  fst refused = json 400 (body_error "No such PaymentMethod: 'pm_1'") /\
  calls (snd refused) = [(Stripe.customers_create "a@b.com" "A" "pm_1" "u4", false)] /\
  Stripe.customers_created (calls (snd refused)) = 0 /\
  Stripe.subscriptions_created (calls (snd refused)) = 0.
Proof. vm_compute. repeat split. Qed.

(** ** cancel-subscription *)

Section CancelSubscriptionClaims.

Variable stripe : Stripe.Processor.

(** The run of the route when the processor accepts the update and the
    user document exists. *)
Lemma cancel_subscription_accepted clk subscriptionId userId w d :
  Firestore.get userId (Firestore.users (db w)) = Some d ->
  is_ret (Stripe.update_subscription stripe (calls w) subscriptionId true) = true ->
  exists w',
    cancel_subscription stripe clk subscriptionId userId w
    = (json 200 (body_message "Subscription will be cancelled at period end"), w') /\
    Firestore.get userId (Firestore.users (db w')) = Some (canceling_fields clk d) /\
    (forall k, k <> userId ->
       Firestore.get k (Firestore.users (db w')) = Firestore.get k (Firestore.users (db w))) /\
    calls w' = calls w ++ [(Stripe.subscriptions_update subscriptionId true, true)].
Proof.
  intros Hg Hok.
  destruct (update_exists userId (canceling_fields clk) _ _ Hg) as [us' Hu].
  unfold_route.
  destruct (Stripe.update_subscription stripe (calls w) subscriptionId true)
    as [s|e]; [|discriminate].
  simpl. rewrite Hg. simpl. rewrite Hu. simpl. eexists. split; [reflexivity|]. simpl.
  split.
  { rewrite (update_get _ _ _ _ userId Hu), String.eqb_refl, Hg. reflexivity. }
  split; [|reflexivity].
  intros k Hk. rewrite (update_get _ _ _ _ k Hu).
  apply eqb_string_neq in Hk. now rewrite Hk.
Qed.

(** C8 (amended). When the user document exists and the processor accepts
    the update request both times, calling cancel-subscription twice with
    the same subscription id and user id answers with success both times;
    each call asks the processor to set [cancel_at_period_end] to [true]
    on that subscription, and after each call the local record has
    [cancelAtPeriodEnd = true] and [subscriptionStatus = canceling].  The
    second call changes nothing on the record but [updatedAt]. *)
Theorem cancel_subscription_twice clk1 clk2 subscriptionId userId w d :
  Firestore.get userId (Firestore.users (db w)) = Some d ->
  is_ret (Stripe.update_subscription stripe (calls w) subscriptionId true) = true ->
  is_ret (Stripe.update_subscription stripe
            (calls w ++ [(Stripe.subscriptions_update subscriptionId true, true)])
            subscriptionId true) = true ->
  let first := cancel_subscription stripe clk1 subscriptionId userId w in
  let second := cancel_subscription stripe clk2 subscriptionId userId (snd first) in
  let ok := json 200 (body_message "Subscription will be cancelled at period end") in
  fst first = ok /\
  fst second = ok /\
  calls (snd second) = calls w ++
    [(Stripe.subscriptions_update subscriptionId true, true);
     (Stripe.subscriptions_update subscriptionId true, true)] /\
  exists d1 d2,
    Firestore.get userId (Firestore.users (db (snd first))) = Some d1 /\
    Firestore.cancelAtPeriodEnd d1 = Some true /\
    Firestore.subscriptionStatus d1 = Some "canceling" /\
    Firestore.get userId (Firestore.users (db (snd second))) = Some d2 /\
    Firestore.cancelAtPeriodEnd d2 = Some true /\
    Firestore.subscriptionStatus d2 = Some "canceling" /\
    Firestore.updatedAt d2 = Some (serverTimestamp clk2) /\
    Firestore.stripeCustomerId d2 = Firestore.stripeCustomerId d1 /\
    Firestore.subscriptionId d2 = Firestore.subscriptionId d1 /\
    Firestore.subscriptionUpdatedAt d2 = Firestore.subscriptionUpdatedAt d1 /\
    Firestore.lastPayment d2 = Firestore.lastPayment d1 /\
    Firestore.paymentHistory d2 = Firestore.paymentHistory d1 /\
    Firestore.subscriptionEndedAt d2 = Firestore.subscriptionEndedAt d1 /\
    (forall k, k <> userId ->
       Firestore.get k (Firestore.users (db (snd second)))
       = Firestore.get k (Firestore.users (db w))).
Proof.
  intros Hg Hok1 Hok2 first second ok. subst first second ok.
  destruct (cancel_subscription_accepted clk1 subscriptionId userId w d Hg Hok1)
    as (w1 & Hrun1 & Hg1 & Hother1 & Hcalls1).
  rewrite Hrun1. simpl fst. simpl snd.
  rewrite <- Hcalls1 in Hok2.
  destruct (cancel_subscription_accepted clk2 subscriptionId userId w1 _ Hg1 Hok2)
    as (w2 & Hrun2 & Hg2 & Hother2 & Hcalls2).
  rewrite Hrun2. simpl fst. simpl snd.
  split; [reflexivity|]. split; [reflexivity|].
  split; [now rewrite Hcalls2, Hcalls1, <- app_assoc|].
  exists (canceling_fields clk1 d), (canceling_fields clk2 (canceling_fields clk1 d)).
  split; [exact Hg1|]. split; [reflexivity|]. split; [reflexivity|].
  split; [exact Hg2|]. repeat (split; [reflexivity|]).
  intros k Hk. now rewrite (Hother2 k Hk), (Hother1 k Hk).
Qed.

End CancelSubscriptionClaims.

Lemma cancel_subscription_twice_witness :
  let first :=
    cancel_subscription Sample.accepting Sample.clock1 "sub_1" "u1" Sample.three_users in
  let second :=
    cancel_subscription Sample.accepting Sample.clock2 "sub_1" "u1" (snd first) in
  let ok := json 200 (body_message "Subscription will be cancelled at period end") in
  Firestore.get "u1" (Firestore.users (db Sample.three_users))
  = Some (Sample.linked "cus_1" []) /\
  fst first = ok /\
  fst second = ok /\
  calls (snd second) =
    [(Stripe.subscriptions_update "sub_1" true, true);
     (Stripe.subscriptions_update "sub_1" true, true)] /\
  exists d2,
    Firestore.get "u1" (Firestore.users (db (snd second))) = Some d2 /\
    Firestore.cancelAtPeriodEnd d2 = Some true /\
    Firestore.subscriptionStatus d2 = Some "canceling".
Proof.
  intros first second ok. split; [reflexivity|].
  destruct (cancel_subscription_twice Sample.accepting Sample.clock1 Sample.clock2
              "sub_1" "u1" Sample.three_users (Sample.linked "cus_1" [])
              eq_refl eq_refl eq_refl)
    as (H1 & H2 & Hcalls & d1 & d2 & _ & _ & _ & Hg2 & Hc2 & Hs2 & _).
  split; [exact H1|]. split; [exact H2|]. split; [exact Hcalls|].
  exists d2. split; [exact Hg2|]. split; [exact Hc2 | exact Hs2].
Defined.

(** C8, as stated, fails when the processor does not know the
    subscription: both calls answer with an error, and the local record
    never gets [cancelAtPeriodEnd = true] or the status [canceling]. *)
Lemma cancel_unknown_subscription_twice :
  let first :=
    cancel_subscription Sample.unknown_subscriptions Sample.clock1 "sub_x" "u1"
      Sample.three_users in
  let second :=
    cancel_subscription Sample.unknown_subscriptions Sample.clock2 "sub_x" "u1"
      (snd first) in
  let after := Firestore.get "u1" (Firestore.users (db (snd second))) in
  fst first = json 400 (body_error "No such subscription: 'sub_x'") /\
  fst second = json 400 (body_error "No such subscription: 'sub_x'") /\
  option_map Firestore.cancelAtPeriodEnd after = Some None /\
  option_map Firestore.subscriptionStatus after = Some (Some "incomplete").
Proof. vm_compute. repeat split. Qed.

(** ** Payment histories only grow *)

Section HistoryInvariant.

Lemma history_extended_refl w : history_extended w w.
Proof. intros uid d Hg. exists d. split; [exact Hg | reflexivity]. Qed.

Lemma history_extended_trans w1 w2 w3 :
  history_extended w1 w2 -> history_extended w2 w3 -> history_extended w1 w3.
Proof.
  intros H12 H23 uid d Hg.
  destruct (H12 uid d Hg) as (d2 & Hg2 & Hp2).
  destruct (H23 uid d2 Hg2) as (d3 & Hg3 & Hp3).
  exists d3. split; [exact Hg3 | now transitivity (Firestore.paymentHistory d2)].
Qed.

(** Only the [users] collection matters. *)
Lemma history_extended_same_users w w' :
  Firestore.users (db w') = Firestore.users (db w) -> history_extended w w'.
Proof.
  intros He uid d Hg. exists d. rewrite He. split; [exact Hg | reflexivity].
Qed.

Lemma keeps_ret {A} (a : A) : keeps_history (ret a).
Proof. intros w. apply history_extended_refl. Qed.

Lemma keeps_throw {A} message : keeps_history (@throw A message).
Proof. intros w. apply history_extended_refl. Qed.

Lemma keeps_eval {A} (r : Result A) : keeps_history (eval r).
Proof. intros w. apply history_extended_refl. Qed.

Lemma keeps_bind {A B} (m : M A) (k : A -> M B) :
  keeps_history m -> (forall a, keeps_history (k a)) -> keeps_history (bind m k).
Proof.
  intros Hm Hk w. unfold bind. specialize (Hm w).
  destruct (m w) as [[a|e] w1]; simpl in *; [|exact Hm].
  apply (history_extended_trans _ w1); [exact Hm | apply Hk].
Qed.

Lemma keeps_try_catch {A} (m : M A) (h : string -> M A) :
  keeps_history m -> (forall e, keeps_history (h e)) -> keeps_history (try_catch m h).
Proof.
  intros Hm Hh w. unfold try_catch. specialize (Hm w).
  destruct (m w) as [[a|e] w1]; simpl in *; [exact Hm|].
  apply (history_extended_trans _ w1); [exact Hm | apply Hh].
Qed.

Lemma keeps_request {A} c (answer : Stripe.Trace -> Result A) :
  keeps_history (request c answer).
Proof. intros w. now apply history_extended_same_users. Qed.

Lemma keeps_users_get id : keeps_history (users_get id).
Proof. intros w. apply history_extended_refl. Qed.

Lemma keeps_users_doc path : keeps_history (users_doc path).
Proof.
  intros w. rewrite (users_doc_world path w). apply history_extended_refl.
Qed.

Lemma keeps_users_where cid : keeps_history (users_where_stripeCustomerId cid).
Proof. intros w. apply history_extended_refl. Qed.

Lemma keeps_payment_methods_add userId c : keeps_history (payment_methods_add userId c).
Proof. intros w. now apply history_extended_same_users. Qed.

Lemma keeps_payment_logs_add l : keeps_history (payment_logs_add l).
Proof. intros w. now apply history_extended_same_users. Qed.

(** An update keeps the histories when its field changes do. *)
Lemma keeps_users_update id f :
  (forall d, Firestore.paymentHistory d `prefix_of` Firestore.paymentHistory (f d)) ->
  keeps_history (users_update id f).
Proof.
  intros Hf w. unfold users_update.
  destruct (Firestore.update id f (Firestore.users (db w))) as [us'|] eqn:Hu; simpl;
    [|apply history_extended_refl].
  intros uid d Hg. simpl. rewrite (update_get _ _ _ _ uid Hu), Hg.
  destruct (String.eqb uid id); simpl; eexists; (split; [reflexivity|]);
    [apply Hf | reflexivity].
Qed.

Lemma keeps_route (m : M Response) on_error w :
  keeps_history m -> history_extended w (snd (route m on_error w)).
Proof.
  intros Hm. unfold route. specialize (Hm w).
  destruct (m w) as [[r|e] w']; exact Hm.
Qed.

End HistoryInvariant.

(** Walk down a handler, primitive by primitive. *)
Ltac keeps_history_step :=
  match goal with
  | |- keeps_history (bind _ _) => apply keeps_bind
  | |- keeps_history (try_catch _ _) => apply keeps_try_catch
  | |- keeps_history (ret _) => apply keeps_ret
  | |- keeps_history (throw _) => apply keeps_throw
  | |- keeps_history (eval _) => apply keeps_eval
  | |- keeps_history (request _ _) => apply keeps_request
  | |- keeps_history (users_get _) => apply keeps_users_get
  | |- keeps_history (users_doc _) => apply keeps_users_doc
  | |- keeps_history (users_where_stripeCustomerId _) => apply keeps_users_where
  | |- keeps_history (payment_methods_add _ _) => apply keeps_payment_methods_add
  | |- keeps_history (payment_logs_add _) => apply keeps_payment_logs_add
  | |- keeps_history (users_update _ _) => apply keeps_users_update
  | |- keeps_history (let _ := _ in _) => cbv zeta
  | |- keeps_history (if ?b then _ else _) => destruct b
  | |- keeps_history (match ?x with _ => _ end) => destruct x
  | |- forall _, _ => intro
  | |- _ `prefix_of` _ => simpl; first [reflexivity | apply arrayUnion_prefix]
  end.

Section HistoryClaim.

Variable stripe : Stripe.Processor.
Variable JSON_parse : string -> Result Stripe.Event.
Variable webhookSecret : option string.

(** C9. Whatever request the server handles (create-subscription,
    cancel-subscription, a webhook delivery, payment-methods, the liveness
    route), every user record is still there afterwards and its earlier
    payment history is a prefix of the new one: entries are only added at
    the end, never changed or removed. *)
Theorem payment_history_only_extended clk r w uid d :
  Firestore.get uid (Firestore.users (db w)) = Some d ->
  exists d',
    Firestore.get uid
      (Firestore.users (db (snd (handle stripe JSON_parse webhookSecret clk r w))))
    = Some d' /\
    Firestore.paymentHistory d `prefix_of` Firestore.paymentHistory d'.
Proof.
  revert uid d.
  change (history_extended w (snd (handle stripe JSON_parse webhookSecret clk r w))).
  destruct r; simpl.
  - apply history_extended_refl.
  - apply keeps_route.
    unfold get_or_create_customer, new_customer, attach, subscribe, save_card,
      read_client_secret, doc_get, doc_update.
    repeat keeps_history_step.
  - apply keeps_route. unfold doc_update. repeat keeps_history_step.
  - apply keeps_route. unfold dispatch. repeat keeps_history_step.
  - apply keeps_route. unfold doc_get. repeat keeps_history_step.
Qed.

End HistoryClaim.

Lemma payment_history_only_extended_witness :
  exists d',
    Firestore.get "u1"
      (Firestore.users
         (db (snd (handle Sample.accepting Sample.parse (Some "whsec_1") Sample.clock2
                     (POST_webhook "paid" (Some "good"))
                     (Sample.recorded [Sample.entry1])))))
    = Some d' /\
    [Sample.entry1] `prefix_of` Firestore.paymentHistory d'.
Proof.
  exact (payment_history_only_extended Sample.accepting Sample.parse (Some "whsec_1")
           Sample.clock2 (POST_webhook "paid" (Some "good"))
           (Sample.recorded [Sample.entry1]) "u1"
           (Sample.linked "cus_1" [Sample.entry1]) eq_refl).
Defined.

(** * Further properties of the server *)

(** ** Start-up: the private key *)

Section PrivateKey.

(** The replacement starts with the first character of its input, or with
    the line feed that stands for an escaped pair. *)
Lemma replace_escaped_newlines_head c rest :
  exists t,
    replace_escaped_newlines (String c rest) = String c t \/
    replace_escaped_newlines (String c rest) = String "010"%char t.
Proof.
  simpl. destruct rest as [|c' rest']; [eauto|].
  destruct (Ascii.eqb c "\"%char && Ascii.eqb c' "n"%char); eauto.
Qed.

Lemma no_escape_after_replace_bounded n :
  forall s, String.length s <= n ->
    has_escaped_newline (replace_escaped_newlines s) = false.
Proof.
  induction n as [|n IH]; intros s Hn.
  - destruct s; [reflexivity | simpl in Hn; lia].
  - destruct s as [|c [|c' rest']]; [reflexivity | reflexivity |].
    change (replace_escaped_newlines (String c (String c' rest')))
      with (if Ascii.eqb c "\"%char && Ascii.eqb c' "n"%char
            then String "010"%char (replace_escaped_newlines rest')
            else String c (replace_escaped_newlines (String c' rest'))).
    simpl in Hn.
    destruct (Ascii.eqb c "\"%char && Ascii.eqb c' "n"%char) eqn:Hpair.
    + assert (Hrest : has_escaped_newline (replace_escaped_newlines rest') = false)
        by (apply IH; lia).
      simpl. destruct (replace_escaped_newlines rest'); [reflexivity | exact Hrest].
    + assert (Hrest : has_escaped_newline
                        (replace_escaped_newlines (String c' rest')) = false)
        by (apply IH; simpl; lia).
      destruct (replace_escaped_newlines_head c' rest') as [t [Ht|Ht]];
        rewrite Ht in *; simpl; simpl in Hrest; rewrite Hrest, orb_false_r.
      * destruct (Ascii.eqb c "\"%char); [|reflexivity]. simpl in *. exact Hpair.
      * now rewrite andb_false_r.
Qed.

Lemma replace_escaped_newlines_fixed s :
  has_escaped_newline s = false -> replace_escaped_newlines s = s.
Proof.
  induction s as [|c rest IH]; [reflexivity|].
  destruct rest as [|c' rest']; [reflexivity|].
  intros H.
  change (has_escaped_newline (String c (String c' rest')))
    with ((Ascii.eqb c "\"%char && Ascii.eqb c' "n"%char)
          || has_escaped_newline (String c' rest')) in H.
  apply orb_false_elim in H as [Hpair Hrest].
  change (replace_escaped_newlines (String c (String c' rest')))
    with (if Ascii.eqb c "\"%char && Ascii.eqb c' "n"%char
          then String "010"%char (replace_escaped_newlines rest')
          else String c (replace_escaped_newlines (String c' rest'))).
  rewrite Hpair. f_equal. exact (IH Hrest).
Qed.

(** An escaped pair becomes one line feed wherever it stands, and what
    is before and after it is replaced on its own. *)
Lemma replace_escaped_pair_bounded n :
  forall a b, String.length a <= n ->
    replace_escaped_newlines (a ++ String "\"%char (String "n"%char b))
    = (replace_escaped_newlines a ++ String "010"%char (replace_escaped_newlines b))%string.
Proof.
  induction n as [|n IH]; intros a b Hn.
  - destruct a; [reflexivity | simpl in Hn; lia].
  - destruct a as [|c [|c' a']]; [reflexivity | |].
    + change (replace_escaped_newlines
                (String c "" ++ String "\"%char (String "n"%char b)))
        with (if Ascii.eqb c "\"%char && Ascii.eqb "\"%char "n"%char
              then String "010"%char (replace_escaped_newlines (String "n"%char b))
              else String c (replace_escaped_newlines
                               (String "\"%char (String "n"%char b)))).
      change (Ascii.eqb "\"%char "n"%char) with false.
      rewrite andb_false_r. reflexivity.
    + change (replace_escaped_newlines
                (String c (String c' a') ++ String "\"%char (String "n"%char b)))
        with (if Ascii.eqb c "\"%char && Ascii.eqb c' "n"%char
              then String "010"%char
                     (replace_escaped_newlines
                        (a' ++ String "\"%char (String "n"%char b)))
              else String c
                     (replace_escaped_newlines
                        (String c' a' ++ String "\"%char (String "n"%char b)))).
      change (replace_escaped_newlines (String c (String c' a')))
        with (if Ascii.eqb c "\"%char && Ascii.eqb c' "n"%char
              then String "010"%char (replace_escaped_newlines a')
              else String c (replace_escaped_newlines (String c' a'))).
      simpl in Hn.
      destruct (Ascii.eqb c "\"%char && Ascii.eqb c' "n"%char).
      * rewrite IH by lia. reflexivity.
      * rewrite IH by (simpl; lia). reflexivity.
Qed.

(** X1. The private key is the environment variable with every escaped
    line feed (a backslash followed by [n]) turned into one line feed and
    everything else kept: a pair between two pieces becomes a line feed
    between the two pieces' keys, and a value without pairs is the key as
    it is.  The key holds no pair any more, and an unset variable stays
    unset. *)
Theorem private_key_unescaped :
  private_key None = None /\
  (forall a b ka kb,
      private_key (Some a) = Some ka ->
      private_key (Some b) = Some kb ->
      private_key (Some (a ++ "\n" ++ b)%string)
      = Some (ka ++ String "010"%char kb)%string) /\
  (forall raw,
      has_escaped_newline raw = false -> private_key (Some raw) = Some raw) /\
  (forall raw key,
      private_key (Some raw) = Some key -> has_escaped_newline key = false).
Proof.
  unfold private_key; simpl. split; [reflexivity|]. split; [|split].
  - intros a b ka kb [= <-] [= <-]. f_equal.
    apply (replace_escaped_pair_bounded (String.length a)). lia.
  - intros raw Hraw. f_equal. now apply replace_escaped_newlines_fixed.
  - intros raw key [= <-].
    apply (no_escape_after_replace_bounded (String.length raw)). lia.
Qed.

End PrivateKey.

Example private_key_sample :
  private_key (Some "-----BEGIN-----\nMIIE\\n\nAb\n")
  = Some ("-----BEGIN-----" ++ String "010"%char
            ("MIIE\" ++ String "010"%char
               (String "010"%char ("Ab" ++ String "010"%char ""))))%string.
Proof. reflexivity. Qed.

(** ** GET /api/payment-methods/:userId *)

Section PaymentMethodsRoute.

Variable stripe : Stripe.Processor.

(** X2. When the read of the user document succeeds and shows no customer
    id (no document, no customer id on it, or the empty string), the
    route answers [{paymentMethods: []}] without asking the processor.
    When the read throws, as on a user id that is no document path, the
    route answers with status 400 and that error.  Nothing changes in
    either case. *)
Theorem payment_methods_without_customer userId w :
  (forall existing,
      read_customer_id userId w = Ret existing ->
      truthy existing = false ->
      payment_methods stripe userId w = (json 200 body_no_paymentMethods, w)) /\
  (forall message,
      read_customer_id userId w = Throw message ->
      payment_methods stripe userId w = (json 400 (body_error message), w)).
Proof.
  unfold read_customer_id, payment_methods, route, bind.
  rewrite (doc_get_world userId w). simpl. split.
  - intros existing Hr Ht.
    destruct (fst (doc_get userId w)) as [[d|]|e]; [| |discriminate];
      injection Hr as <-; now rewrite Ht.
  - intros message Hr.
    destruct (fst (doc_get userId w)) as [[d|]|e]; congruence.
Qed.

(** X3. For a user with a customer id, the route asks the processor (not
    the saved cards of the store) for that customer's payment methods,
    once: it answers with the processor's list, or with status 400 and the
    processor's message; the store is not touched. *)
Theorem payment_methods_from_processor userId w cid :
  existing_customer_id userId w = Some cid ->
  cid <> "" ->
  let answer := Stripe.list_payment_methods stripe (calls w) cid in
  payment_methods stripe userId w =
    (match answer with
     | Ret data => json 200 (body_paymentMethods data)
     | Throw message => json 400 (body_error message)
     end,
     {| db := db w;
        calls := calls w ++ [(Stripe.paymentMethods_list cid, is_ret answer)] |}).
Proof.
  unfold existing_customer_id, payment_methods, route, bind.
  destruct (Firestore.get userId (Firestore.users (db w))) as [d|] eqn:Hg;
    [|discriminate].
  rewrite (doc_get_stored _ _ _ Hg). unfold request.
  intros -> Hcid. apply eqb_string_neq in Hcid. simpl. rewrite Hcid. simpl.
  destruct (Stripe.list_payment_methods stripe (calls w) cid); reflexivity.
Qed.

End PaymentMethodsRoute.

Lemma payment_methods_without_customer_witness :
  payment_methods Sample.one_card "u3" Sample.three_users
  = (json 200 body_no_paymentMethods, Sample.three_users) /\
  payment_methods Sample.one_card "u4" Sample.three_users
  = (json 200 body_no_paymentMethods, Sample.three_users) /\
  payment_methods Sample.one_card "a/b" Sample.three_users
  = (json 400
       (body_error (Sample.not_a_document "a/b")),
     Sample.three_users).
Proof.
  split; [|split].
  - destruct (payment_methods_without_customer Sample.one_card "u3" Sample.three_users)
      as [Hnone _].
    exact (Hnone None eq_refl eq_refl).
  - destruct (payment_methods_without_customer Sample.one_card "u4" Sample.three_users)
      as [Hnone _].
    exact (Hnone None eq_refl eq_refl).
  - destruct (payment_methods_without_customer Sample.one_card "a/b" Sample.three_users)
      as [_ Hbad].
    apply Hbad. reflexivity.
Defined.

Lemma payment_methods_from_processor_witness :
  payment_methods Sample.one_card "u1" Sample.three_users
  = (json 200
       (body_paymentMethods
          [{| Stripe.payment_method_id := "pm_1"; Stripe.card := Some Sample.visa |}]),
     {| db := db Sample.three_users;
        calls := [(Stripe.paymentMethods_list "cus_1", true)] |}).
Proof.
  apply (payment_methods_from_processor Sample.one_card "u1" Sample.three_users "cus_1");
    [reflexivity | discriminate].
Defined.

(** ** POST /api/create-subscription, step by step *)

Section CreateSubscriptionRuns.

Variable stripe : Stripe.Processor.


(** X5. When the customer id on record is stale (the processor throws on
    its retrieval), step 1 drops that error and asks for a new customer,
    bound to the user; the outcome of step 1 is the outcome of this
    creation, and the store is not written. *)
Theorem stale_customer_replaced paymentMethodId userId userEmail userName w cid message :
  existing_customer_id userId w = Some cid ->
  cid <> "" ->
  Stripe.retrieve_customer stripe (calls w) cid = Throw message ->
  let t := calls w ++ [(Stripe.customers_retrieve cid, false)] in
  let answer := Stripe.create_customer stripe t userEmail userName paymentMethodId userId in
  get_or_create_customer stripe paymentMethodId userId userEmail userName w =
    (answer,
     {| db := db w;
        calls := t ++ [(Stripe.customers_create userEmail userName paymentMethodId userId,
                        is_ret answer)] |}).
Proof.
  unfold existing_customer_id, get_or_create_customer, bind.
  destruct (Firestore.get userId (Firestore.users (db w))) as [d|] eqn:Hg;
    [|discriminate].
  rewrite (doc_get_stored _ _ _ Hg). unfold try_catch, new_customer, request.
  intros -> Hcid Hr. apply eqb_string_neq in Hcid. simpl. rewrite Hcid. simpl.
  now rewrite Hr.
Qed.

(** X6. A payment log is written exactly when the call succeeds: a
    success response comes with one new log for the ids and status of the
    response (9.99 cad); an error response leaves the logs as they
    were. *)
Theorem payment_log_iff_success clk paymentMethodId priceId userId saveCard
    userEmail userName w :
  let run :=
    create_subscription stripe clk paymentMethodId priceId userId saveCard
      userEmail userName w in
  (exists sid cid secret st,
      fst run = json 200 (body_subscription sid cid secret st) /\
      Firestore.payment_logs (db (snd run)) =
        Firestore.payment_logs (db w) ++
        [{| Firestore.log_userId := userId;
            Firestore.log_customerId := cid;
            Firestore.log_subscriptionId := sid;
            Firestore.log_amount := 999 # 100;
            Firestore.log_currency := "cad";
            Firestore.log_status := st;
            Firestore.log_timestamp := serverTimestamp clk |}]) \/
  (exists message,
      fst run = json 400 (body_error message) /\
      Firestore.payment_logs (db (snd run)) = Firestore.payment_logs (db w)).
Proof.
  unfold_route.
  repeat (case_match; simpl in *; simplify_eq);
    first [ left; do 4 eexists; split; reflexivity
          | right; eexists; split; reflexivity ].
Qed.

(** X7. The store is written only once the processor has created the
    subscription: a call in which no subscription was created leaves the
    whole store as it was. *)
Theorem store_written_after_subscription clk paymentMethodId priceId userId saveCard
    userEmail userName w :
  let run :=
    create_subscription stripe clk paymentMethodId priceId userId saveCard
      userEmail userName w in
  exists new,
    calls (snd run) = calls w ++ new /\
    (Stripe.subscriptions_created new = 0 -> db (snd run) = db w).
Proof.
  unfold_route.
  repeat (case_match; simpl in *; simplify_eq);
    first [ exists []; split; [now rewrite app_nil_r | reflexivity]
          | suffix; first [ discriminate | reflexivity | (intros _; reflexivity) ] ].
Qed.



(** X10. Without [saveCard] the call never asks the processor for the
    details of a payment method and adds no saved card, whatever else
    happens. *)
Theorem no_card_saved_unless_asked clk paymentMethodId priceId userId
    userEmail userName w :
  let run :=
    create_subscription stripe clk paymentMethodId priceId userId false
      userEmail userName w in
  Firestore.payment_methods (db (snd run)) = Firestore.payment_methods (db w) /\
  exists new,
    calls (snd run) = calls w ++ new /\
    Forall (fun c => forall pm, fst c <> Stripe.paymentMethods_retrieve pm) new.
Proof.
  unfold_route.
  repeat (case_match; simpl in *; simplify_eq);
    (split; [reflexivity|]);
    first [ exists []; split; [now rewrite app_nil_r | constructor]
          | rewrite <- ?app_assoc; eexists; (split; [reflexivity|]);
            repeat (constructor; [simpl; intros; discriminate|]); constructor ].
Qed.

End CreateSubscriptionRuns.


Lemma stale_customer_replaced_witness :
  get_or_create_customer Sample.forgetting_customers "pm_1" "u1" "a@b.com" "A"
    Sample.three_users
  = (Ret {| Stripe.customer_id := "cus_new" |},
     {| db := db Sample.three_users;
        calls := [(Stripe.customers_retrieve "cus_1", false);
                  (Stripe.customers_create "a@b.com" "A" "pm_1" "u1", true)] |}).
Proof.
  apply (stale_customer_replaced Sample.forgetting_customers "pm_1" "u1" "a@b.com" "A"
           Sample.three_users "cus_1" "No such customer: 'cus_1'");
    [reflexivity | discriminate | reflexivity].
Defined.



(** ** POST /webhook: the other cases *)

Section WebhookRuns.

Variable stripe : Stripe.Processor.
Variable JSON_parse : string -> Result Stripe.Event.
Variable webhookSecret : option string.



(** X11. An authenticated event of any type other than
    [invoice.payment_succeeded] and [customer.subscription.deleted]
    ([invoice.payment_failed] included) is acknowledged and changes
    nothing. *)
Theorem webhook_ignores_other_events clk body sig event w :
  decode stripe JSON_parse webhookSecret body sig = Ret event ->
  Stripe.type event <> "invoice.payment_succeeded" ->
  Stripe.type event <> "customer.subscription.deleted" ->
  webhook stripe JSON_parse webhookSecret clk body sig w = (json 200 body_received, w).
Proof.
  intros Hd H1 H2. rewrite (webhook_decoded _ _ _ _ _ _ _ _ Hd).
  unfold dispatch. apply eqb_string_neq in H1, H2. rewrite H1, H2.
  destruct (String.eqb (Stripe.type event) "invoice.payment_failed"); reflexivity.
Qed.

(** X12. Without a webhook secret the body is only parsed: the signature
    header and the processor's signature check play no part in the
    outcome, and a body that does not parse is answered with status 400
    and the parser's message, nothing being changed. *)
Theorem webhook_without_secret clk body sig w :
  truthy webhookSecret = false ->
  (forall stripe' sig',
      webhook stripe JSON_parse webhookSecret clk body sig w
      = webhook stripe' JSON_parse webhookSecret clk body sig' w) /\
  (forall message,
      JSON_parse body = Throw message ->
      webhook stripe JSON_parse webhookSecret clk body sig w
      = (send 400 ("Webhook Error: " ++ message), w)).
Proof.
  intros Hs. split.
  - intros stripe' sig'. unfold webhook, decode. now rewrite Hs.
  - intros message Hp. unfold webhook, route, bind, eval, decode.
    now rewrite Hs, Hp.
Qed.

(** What a delivery can do to the world: nothing, or one update of one
    user document by the fields of its case. *)
Lemma webhook_world clk body sig w :
  let w' := snd (webhook stripe JSON_parse webhookSecret clk body sig w) in
  w' = w \/
  exists uid f us',
    Firestore.update uid f (Firestore.users (db w)) = Some us' /\
    w' = set_users us' w /\
    ((exists invoice, f = payment_succeeded_fields clk invoice) \/
     f = cancelled_fields clk).
Proof.
  unfold webhook, route, dispatch.
  unfold bind, eval, users_where_stripeCustomerId, users_update, ret.
  destruct (decode stripe JSON_parse webhookSecret body sig) as [event|e]; simpl;
    [|now left].
  repeat (case_match; simpl in *; simplify_eq); try (now left);
    right; do 3 eexists; (split; [eassumption|]); (split; [reflexivity|]); eauto.
Qed.

(** X13. Whatever is delivered, the webhook sends no request to the
    processor, writes no saved card and no payment log, creates or
    deletes no user document, and leaves on every document the customer
    id, the subscription id and the cancel-at-period-end flag it had. *)
Theorem webhook_touches_only_status clk body sig w :
  let w' := snd (webhook stripe JSON_parse webhookSecret clk body sig w) in
  calls w' = calls w /\
  Firestore.payment_methods (db w') = Firestore.payment_methods (db w) /\
  Firestore.payment_logs (db w') = Firestore.payment_logs (db w) /\
  map fst (Firestore.users (db w')) = map fst (Firestore.users (db w)) /\
  forall uid d,
    Firestore.get uid (Firestore.users (db w)) = Some d ->
    exists d',
      Firestore.get uid (Firestore.users (db w')) = Some d' /\
      Firestore.stripeCustomerId d' = Firestore.stripeCustomerId d /\
      Firestore.subscriptionId d' = Firestore.subscriptionId d /\
      Firestore.cancelAtPeriodEnd d' = Firestore.cancelAtPeriodEnd d /\
      Firestore.subscriptionUpdatedAt d' = Firestore.subscriptionUpdatedAt d /\
      Firestore.updatedAt d' = Firestore.updatedAt d.
Proof.
  intros w'. subst w'.
  destruct (webhook_world clk body sig w) as [-> | (id & f & us' & Hu & -> & Hf)].
  - repeat split. intros uid d Hg. exists d. repeat split. exact Hg.
  - simpl. repeat split; [now apply (update_keys id f)|].
    intros uid d Hg. rewrite (update_get _ _ _ _ uid Hu), Hg.
    destruct (String.eqb uid id); simpl; eexists; (split; [reflexivity|]);
      [|repeat split].
    destruct Hf as [[invoice ->] | ->]; repeat split.
Qed.


End WebhookRuns.

Lemma webhook_ignores_other_events_witness :
  webhook Sample.accepting Sample.parse_other None Sample.clock1
    "failed" None Sample.three_users
  = (json 200 body_received, Sample.three_users) /\
  webhook Sample.accepting Sample.parse_other None Sample.clock1
    "created" None Sample.three_users
  = (json 200 body_received, Sample.three_users).
Proof.
  split.
  - apply (webhook_ignores_other_events Sample.accepting Sample.parse_other None
             Sample.clock1 "failed" None Sample.invoice_failed);
      [reflexivity | discriminate | discriminate].
  - apply (webhook_ignores_other_events Sample.accepting Sample.parse_other None
             Sample.clock1 "created" None Sample.customer_created);
      [reflexivity | discriminate | discriminate].
Defined.

Lemma webhook_without_secret_witness :
  webhook Sample.accepting Sample.parse (Some "") Sample.clock1
    "paid" (Some "forged") Sample.three_users
  = webhook Sample.refusing_customers Sample.parse (Some "") Sample.clock1
      "paid" None Sample.three_users /\
  webhook Sample.accepting Sample.parse None Sample.clock1
    "{" None Sample.three_users
  = (send 400 "Webhook Error: Unexpected end of JSON input", Sample.three_users).
Proof.
  split.
  - apply (webhook_without_secret Sample.accepting Sample.parse (Some "")
             Sample.clock1 "paid" (Some "forged") Sample.three_users eq_refl).
  - apply (webhook_without_secret Sample.accepting Sample.parse None
             Sample.clock1 "{" None Sample.three_users eq_refl).
    reflexivity.
Defined.


(** ** POST /api/cancel-subscription: the failing runs *)

Section CancelSubscriptionRuns.

Variable stripe : Stripe.Processor.
Variable JSON_parse : string -> Result Stripe.Event.
Variable webhookSecret : option string.

(** X15. When the processor refuses the update (an unknown subscription
    id, say), cancel-subscription answers with status 400 and the
    processor's message, and the store is not written. *)
Theorem cancel_subscription_refused clk subscriptionId userId w message :
  Stripe.update_subscription stripe (calls w) subscriptionId true = Throw message ->
  cancel_subscription stripe clk subscriptionId userId w =
    (json 400 (body_error message),
     {| db := db w;
        calls := calls w ++ [(Stripe.subscriptions_update subscriptionId true, false)] |}).
Proof.
  intros Hr. unfold cancel_subscription, route, bind, request. now rewrite Hr.
Qed.

(** X16. The processor is asked first: for a user without a document,
    the processor's subscription is set to cancel at period end, and only
    then does the call fail on the missing document, with status 400 and
    the NOT_FOUND of the update; so it is for every user id that names a
    document that does not exist, and for a user id that is no document
    path the call fails in the same place with the client's error.  The
    store is unchanged, so no record is marked [canceling]. *)
Theorem cancel_subscription_missing_document clk subscriptionId userId w :
  is_ret (Stripe.update_subscription stripe (calls w) subscriptionId true) = true ->
  let asked :=
    {| db := db w;
       calls := calls w ++ [(Stripe.subscriptions_update subscriptionId true, true)] |} in
  (Firestore.get userId (Firestore.users (db w)) = None ->
   Firestore.doc (db w) userId = Ret (Firestore.in_users userId) ->
   cancel_subscription stripe clk subscriptionId userId w
   = (json 400 (body_error (Firestore.not_found userId)), asked)) /\
  (fst (doc_get userId w) = Ret None ->
   exists path,
     cancel_subscription stripe clk subscriptionId userId w
     = (json 400 (body_error (Firestore.not_found path)), asked)) /\
  (forall message,
      fst (doc_get userId w) = Throw message ->
      cancel_subscription stripe clk subscriptionId userId w
      = (json 400 (body_error message), asked)).
Proof.
  intros Hok asked. subst asked.
  set (w1 := {| db := db w;
                calls := calls w ++
                  [(Stripe.subscriptions_update subscriptionId true, true)] |}).
  assert (Hrun : forall message,
             doc_update userId (canceling_fields clk) w1 = (Throw message, w1) ->
             cancel_subscription stripe clk subscriptionId userId w
             = (json 400 (body_error message), w1)).
  { intros message Hm.
    unfold cancel_subscription, route, bind, request. cbv beta.
    destruct (Stripe.update_subscription stripe (calls w) subscriptionId true)
      as [s|e]; [|discriminate].
    cbv beta iota. simpl is_ret. fold w1. now rewrite Hm. }
  split; [|split].
  - intros Hg Hd. apply Hrun.
    unfold doc_update, bind, users_doc, users_update. simpl.
    rewrite Hg, Hd. now rewrite (update_missing _ _ _ Hg).
  - intros Hg.
    destruct (doc_update_absent userId (canceling_fields clk) w w1 Hg eq_refl)
      as [p Hp].
    exists p. now apply Hrun.
  - intros message Hg. apply Hrun.
    exact (doc_update_refused userId (canceling_fields clk) w w1 message
             Hg eq_refl).
Qed.

(** The accepted run, with the update it makes. *)
Lemma cancel_subscription_run clk subscriptionId userId w d :
  Firestore.get userId (Firestore.users (db w)) = Some d ->
  is_ret (Stripe.update_subscription stripe (calls w) subscriptionId true) = true ->
  exists us',
    Firestore.update userId (canceling_fields clk) (Firestore.users (db w)) = Some us' /\
    cancel_subscription stripe clk subscriptionId userId w
    = (json 200 (body_message "Subscription will be cancelled at period end"),
       {| db := db (set_users us' w);
          calls := calls w ++ [(Stripe.subscriptions_update subscriptionId true, true)] |}).
Proof.
  intros Hg Hok.
  destruct (update_exists userId (canceling_fields clk) _ _ Hg) as [us' Hu].
  exists us'. split; [exact Hu|].
  unfold cancel_subscription, route, doc_update.
  unfold bind, request, users_doc, users_update, ret.
  destruct (Stripe.update_subscription stripe (calls w) subscriptionId true)
    as [s|e]; [|discriminate].
  simpl. rewrite Hg. simpl. now rewrite Hu.
Qed.

(** X17. A paid invoice that arrives after a cancellation sets the status
    of the record back to [active] and leaves [cancelAtPeriodEnd = true]
    on it: the webhook never clears the flag. *)
Theorem payment_after_cancellation clk1 clk2 subscriptionId body sig event w uid d rest :
  Firestore.wf (db w) ->
  is_ret (Stripe.update_subscription stripe (calls w) subscriptionId true) = true ->
  decode stripe JSON_parse webhookSecret body sig = Ret event ->
  Stripe.type event = "invoice.payment_succeeded" ->
  Firestore.where_stripeCustomerId (Stripe.customer (Stripe.data_object event))
    (Firestore.users (db w)) = (uid, d) :: rest ->
  let first := cancel_subscription stripe clk1 subscriptionId uid w in
  let second := webhook stripe JSON_parse webhookSecret clk2 body sig (snd first) in
  fst first = json 200 (body_message "Subscription will be cancelled at period end") /\
  fst second = json 200 body_received /\
  exists d2,
    Firestore.get uid (Firestore.users (db (snd second))) = Some d2 /\
    Firestore.subscriptionStatus d2 = Some "active" /\
    Firestore.cancelAtPeriodEnd d2 = Some true.
Proof.
  intros Hwf Hok Hd Ht Hq first second.
  pose proof (where_head_get _ _ _ _ _ Hwf Hq) as Hg.
  destruct (cancel_subscription_run clk1 subscriptionId uid w d Hg Hok)
    as (us1 & Hu1 & Hrun1).
  subst first second. rewrite Hrun1. simpl fst. simpl snd.
  match goal with
  | |- context [webhook _ _ _ _ _ _ ?w1] => set (w1' := w1)
  end.
  assert (Hwf1 : Firestore.wf (db w1')).
  { unfold Firestore.wf. simpl. rewrite (update_keys _ _ _ _ Hu1). exact Hwf. }
  assert (Hq1 : Firestore.where_stripeCustomerId
                  (Stripe.customer (Stripe.data_object event))
                  (Firestore.users (db w1')) = (uid, canceling_fields clk1 d) :: rest).
  { simpl. apply (where_update_head _ (canceling_fields clk1)
                    (Firestore.users (db w))); auto. }
  destruct (webhook_payment_succeeded stripe JSON_parse webhookSecret clk2 _ _ _ _ _ _ _
              Hwf1 Hd Ht Hq1) as (us2 & Hu2 & Hrun2).
  rewrite Hrun2. simpl fst. simpl snd.
  split; [reflexivity|]. split; [reflexivity|].
  exists (payment_succeeded_fields clk2 (Stripe.data_object event)
            (canceling_fields clk1 d)).
  split; [|split; reflexivity].
  simpl. simpl in Hu2. rewrite (update_get _ _ _ _ uid Hu2), String.eqb_refl.
  rewrite (update_get _ _ _ _ uid Hu1), String.eqb_refl, Hg. reflexivity.
Qed.

End CancelSubscriptionRuns.

Lemma cancel_subscription_refused_witness :
  cancel_subscription Sample.unknown_subscriptions Sample.clock1 "sub_x" "u1"
    Sample.three_users
  = (json 400 (body_error "No such subscription: 'sub_x'"),
     {| db := db Sample.three_users;
        calls := [(Stripe.subscriptions_update "sub_x" true, false)] |}).
Proof.
  apply (cancel_subscription_refused Sample.unknown_subscriptions Sample.clock1
           "sub_x" "u1" Sample.three_users). reflexivity.
Defined.

Lemma cancel_subscription_missing_document_witness :
  cancel_subscription Sample.accepting Sample.clock1 "sub_1" "u4" Sample.three_users
  = (json 400 (body_error "5 NOT_FOUND: No document to update: users/u4"),
     {| db := db Sample.three_users;
        calls := [(Stripe.subscriptions_update "sub_1" true, true)] |}) /\
  (exists path,
      cancel_subscription Sample.accepting Sample.clock1 "sub_1" "u4/cards/c1"
        Sample.three_users
      = (json 400 (body_error (Firestore.not_found path)),
         {| db := db Sample.three_users;
            calls := [(Stripe.subscriptions_update "sub_1" true, true)] |})) /\
  cancel_subscription Sample.accepting Sample.clock1 "sub_1" "" Sample.three_users
  = (json 400 (body_error Sample.empty_path),
     {| db := db Sample.three_users;
        calls := [(Stripe.subscriptions_update "sub_1" true, true)] |}).
Proof.
  split; [|split].
  - destruct (cancel_subscription_missing_document Sample.accepting Sample.clock1
                "sub_1" "u4" Sample.three_users eq_refl) as [Hplain _].
    exact (Hplain eq_refl eq_refl).
  - destruct (cancel_subscription_missing_document Sample.accepting Sample.clock1
                "sub_1" "u4/cards/c1" Sample.three_users eq_refl)
      as [_ [Habsent _]].
    exact (Habsent eq_refl).
  - destruct (cancel_subscription_missing_document Sample.accepting Sample.clock1
                "sub_1" "" Sample.three_users eq_refl) as [_ [_ Hbad]].
    apply Hbad. reflexivity.
Defined.

Lemma payment_after_cancellation_witness :
  let first :=
    cancel_subscription Sample.accepting Sample.clock1 "sub_1" "u1" Sample.three_users in
  let second :=
    webhook Sample.accepting Sample.parse (Some "whsec_1") Sample.clock2
      "paid" (Some "good") (snd first) in
  exists d2,
    Firestore.get "u1" (Firestore.users (db (snd second))) = Some d2 /\
    Firestore.subscriptionStatus d2 = Some "active" /\
    Firestore.cancelAtPeriodEnd d2 = Some true.
Proof.
  destruct (payment_after_cancellation Sample.accepting Sample.parse (Some "whsec_1")
              Sample.clock1 Sample.clock2 "sub_1" "paid" (Some "good")
              Sample.invoice_paid Sample.three_users
              "u1" (Sample.linked "cus_1" []) [("u2", Sample.linked "cus_1" [])]
              three_users_wf eq_refl eq_refl eq_refl eq_refl)
    as (_ & _ & Hd2).
  exact Hd2.
Defined.

(** ** What no route does *)

Section Stable.

Variable R : World -> World -> Prop.
Hypothesis R_refl : forall w, R w w.
Hypothesis R_trans : forall a b c, R a b -> R b c -> R a c.

Lemma stable_ret {A} (a : A) : stable R (ret a).
Proof. intros w. apply R_refl. Qed.

Lemma stable_throw {A} message : stable R (@throw A message).
Proof. intros w. apply R_refl. Qed.

Lemma stable_eval {A} (r : Result A) : stable R (eval r).
Proof. intros w. apply R_refl. Qed.

Lemma stable_users_get id : stable R (users_get id).
Proof. intros w. apply R_refl. Qed.

Lemma stable_users_where cid : stable R (users_where_stripeCustomerId cid).
Proof. intros w. apply R_refl. Qed.

Lemma stable_bind {A B} (m : M A) (k : A -> M B) :
  stable R m -> (forall a, stable R (k a)) -> stable R (bind m k).
Proof.
  intros Hm Hk w. unfold bind. specialize (Hm w).
  destruct (m w) as [[a|e] w1]; simpl in *; [|exact Hm].
  apply (R_trans _ w1); [exact Hm | apply Hk].
Qed.

Lemma stable_try_catch {A} (m : M A) (h : string -> M A) :
  stable R m -> (forall e, stable R (h e)) -> stable R (try_catch m h).
Proof.
  intros Hm Hh w. unfold try_catch. specialize (Hm w).
  destruct (m w) as [[a|e] w1]; simpl in *; [exact Hm|].
  apply (R_trans _ w1); [exact Hm | apply Hh].
Qed.

Lemma stable_route (m : M Response) on_error w :
  stable R m -> R w (snd (route m on_error w)).
Proof.
  intros Hm. unfold route. specialize (Hm w).
  destruct (m w) as [[r|e] w']; exact Hm.
Qed.

End Stable.

Section Conservative.

Lemma conservative_refl w : conservative w w.
Proof. repeat split; reflexivity. Qed.

Lemma conservative_trans a b c :
  conservative a b -> conservative b c -> conservative a c.
Proof.
  unfold conservative, same_documents, append_only.
  intros (Hk1 & Hc1 & Hm1 & Hl1) (Hk2 & Hc2 & Hm2 & Hl2).
  split; [congruence|].
  split; [now transitivity (calls b)|].
  split; [now transitivity (Firestore.payment_methods (db b))
         | now transitivity (Firestore.payment_logs (db b))].
Qed.

Lemma conservative_request {A} c (answer : Stripe.Trace -> Result A) :
  stable conservative (request c answer).
Proof.
  intros w. unfold request. simpl. repeat split; try reflexivity.
  now apply prefix_app_r.
Qed.

Lemma conservative_users_doc path : stable conservative (users_doc path).
Proof.
  intros w. rewrite (users_doc_world path w). apply conservative_refl.
Qed.

Lemma conservative_users_update id f : stable conservative (users_update id f).
Proof.
  intros w. unfold users_update.
  destruct (Firestore.update id f (Firestore.users (db w))) as [us'|] eqn:Hu; simpl;
    [|apply conservative_refl].
  split; [exact (update_keys _ _ _ _ Hu)|]. repeat split; reflexivity.
Qed.

Lemma conservative_payment_methods_add userId c :
  stable conservative (payment_methods_add userId c).
Proof.
  intros w. unfold payment_methods_add. simpl. repeat split; try reflexivity.
  now apply prefix_app_r.
Qed.

Lemma conservative_payment_logs_add l : stable conservative (payment_logs_add l).
Proof.
  intros w. unfold payment_logs_add. simpl. repeat split; try reflexivity.
  now apply prefix_app_r.
Qed.

End Conservative.

Ltac conservative_step :=
  match goal with
  | |- stable _ (bind _ _) => apply (stable_bind _ conservative_trans)
  | |- stable _ (try_catch _ _) => apply (stable_try_catch _ conservative_trans)
  | |- stable _ (ret _) => apply (stable_ret _ conservative_refl)
  | |- stable _ (throw _) => apply (stable_throw _ conservative_refl)
  | |- stable _ (eval _) => apply (stable_eval _ conservative_refl)
  | |- stable _ (users_get _) => apply (stable_users_get _ conservative_refl)
  | |- stable _ (users_where_stripeCustomerId _) =>
      apply (stable_users_where _ conservative_refl)
  | |- stable _ (request _ _) => apply conservative_request
  | |- stable _ (users_update _ _) => apply conservative_users_update
  | |- stable _ (users_doc _) => apply conservative_users_doc
  | |- stable _ (payment_methods_add _ _) => apply conservative_payment_methods_add
  | |- stable _ (payment_logs_add _) => apply conservative_payment_logs_add
  | |- stable _ (let _ := _ in _) => cbv zeta
  | |- stable _ (if ?b then _ else _) => destruct b
  | |- stable _ (match ?x with _ => _ end) => destruct x
  | |- forall _, _ => intro
  end.

Section Invariants.

Variable stripe : Stripe.Processor.
Variable JSON_parse : string -> Result Stripe.Event.
Variable webhookSecret : option string.

Lemma handle_conservative clk r w :
  conservative w (snd (handle stripe JSON_parse webhookSecret clk r w)).
Proof.
  destruct r; simpl.
  - apply conservative_refl.
  - apply (stable_route conservative).
    unfold get_or_create_customer, new_customer, attach, subscribe, save_card,
      read_client_secret, doc_get, doc_update.
    repeat conservative_step.
  - apply (stable_route conservative). unfold doc_update. repeat conservative_step.
  - apply (stable_route conservative). unfold dispatch. repeat conservative_step.
  - apply (stable_route conservative). unfold doc_get. repeat conservative_step.
Qed.

(** X18. No request creates or deletes a user document: the ids of the
    [users] collection, in their order, are the same after any request as
    before, whether it succeeds or fails; in particular ids stay
    unique. *)
Theorem documents_never_created_or_deleted clk r w :
  let w' := snd (handle stripe JSON_parse webhookSecret clk r w) in
  map fst (Firestore.users (db w')) = map fst (Firestore.users (db w)) /\
  (Firestore.wf (db w) -> Firestore.wf (db w')).
Proof.
  intros w'. destruct (handle_conservative clk r w) as [Hk _].
  unfold same_documents in Hk. fold w' in Hk. split; [exact Hk|].
  unfold Firestore.wf. now rewrite Hk.
Qed.


End Invariants.

Lemma documents_never_created_or_deleted_witness :
  let w' :=
    snd (handle Sample.accepting Sample.parse (Some "whsec_1") Sample.clock1
           (POST_create_subscription "pm_1" "price_1" "u3" true "a@b.com" "A")
           Sample.three_users) in
  map fst (Firestore.users (db w')) = ["u1"; "u2"; "u3"] /\
  Firestore.wf (db w').
Proof.
  destruct (documents_never_created_or_deleted Sample.accepting Sample.parse
              (Some "whsec_1") Sample.clock1
              (POST_create_subscription "pm_1" "price_1" "u3" true "a@b.com" "A")
              Sample.three_users) as [Hk Hwf].
  intros w'. split; [exact Hk | exact (Hwf three_users_wf)].
Defined.

Lemma private_key_unescaped_witness :
  has_escaped_newline "line1" = false /\
  has_escaped_newline "line2" = false /\
  private_key (Some "line1\nline2") = Some ("line1" ++ String "010"%char "line2")%string.
Proof.
  split; [reflexivity|]. split; [reflexivity|].
  destruct private_key_unescaped as (_ & Hpair & Hkept & _).
  apply (Hpair "line1" "line2" "line1" "line2"); apply Hkept; reflexivity.
Defined.
